(** * The product crawler: static extractor, pagination loop, scroll loop

    A shallow embedding of [crawler.py] (the static, fetch-based crawler)
    and of the two pieces of [scrape.py] that carry logic of their own (the
    infinite-scroll loop and the image URL normalisation).

    Conventions.
    - Python [str] values are [string]s; a character is a code point below
      256.  On that range [\d] is ['0'..'9'], [str.isspace] and [str.lower]
      are the tables written out below.
    - A parsed document is a tree of [Tag]s and [NavigableString]s, as
      BeautifulSoup builds it; the HTML parser itself and [urljoin] are
      taken as given (Section variables), [urljoin] with the [ValueError]
      it can raise.
    - A Python [dict] keeps its keys in insertion order; it is a list of
      key-value pairs with at most one pair per key.
    - A Python exception is a value of [exn]; code that can raise returns a
      [result].
    - The network is a [World]: what the n-th request answers, and the
      requests made so far.
    - [while True] loops take fuel; every theorem that says a loop returns
      says so for all sufficient fuel. *)

From Stdlib Require Import Ascii String QArith.
From stdpp Require Import base option list strings pretty.

Open Scope string_scope.
Open Scope list_scope.

(** ** Python strings *)

Module PyStr.

Definition code (c : ascii) : N := N_of_ascii c.

(** [\d] of a [str] pattern, on code points below 256. *)
Definition is_digit (c : ascii) : bool :=
  (48 <=? code c)%N && (code c <=? 57)%N.

Definition is_dot (c : ascii) : bool := Ascii.eqb c ".".

(** [str.isspace] on code points below 256. *)
Definition is_space (c : ascii) : bool :=
  let n := code c in
  ((9 <=? n)%N && (n <=? 13)%N) || ((28 <=? n)%N && (n <=? 32)%N)
  || (n =? 133)%N || (n =? 160)%N.

(** [str.lower] on code points below 256: A-Z, and the Latin-1 capitals
    192-222 except the multiplication sign 215. *)
Definition lower_char (c : ascii) : ascii :=
  let n := code c in
  if ((65 <=? n)%N && (n <=? 90)%N)
     || ((192 <=? n)%N && (n <=? 222)%N && negb (n =? 215)%N)
  then ascii_of_N (n + 32) else c.

Fixpoint lower (s : string) : string :=
  match s with
  | EmptyString => EmptyString
  | String c r => String (lower_char c) (lower r)
  end.

Fixpoint filter (p : ascii -> bool) (s : string) : string :=
  match s with
  | EmptyString => EmptyString
  | String c r => if p c then String c (filter p r) else filter p r
  end.

Fixpoint all (p : ascii -> bool) (s : string) : bool :=
  match s with
  | EmptyString => true
  | String c r => p c && all p r
  end.

Fixpoint count (p : ascii -> bool) (s : string) : nat :=
  match s with
  | EmptyString => 0
  | String c r => (if p c then 1 else 0) + count p r
  end.

(** [s.startswith(p)] *)
Fixpoint startswith (p s : string) : bool :=
  match p, s with
  | EmptyString, _ => true
  | String a p', String b s' => Ascii.eqb a b && startswith p' s'
  | String _ _, EmptyString => false
  end.

(** [p in s] *)
Fixpoint contains (p s : string) : bool :=
  startswith p s ||
  match s with
  | EmptyString => false
  | String _ r => contains p r
  end.

(** [s.endswith(p)] *)
Fixpoint endswith (p s : string) : bool :=
  String.eqb p s ||
  match s with
  | EmptyString => false
  | String _ r => endswith p r
  end.

Fixpoint lstrip (s : string) : string :=
  match s with
  | EmptyString => EmptyString
  | String c r => if is_space c then lstrip r else s
  end.

(** Trailing whitespace: a character is kept when something non-blank
    follows it or it is not blank itself. *)
Fixpoint rstrip (s : string) : string :=
  match s with
  | EmptyString => EmptyString
  | String c r =>
      match rstrip r with
      | EmptyString => if is_space c then EmptyString else String c EmptyString
      | r' => String c r'
      end
  end.

(** [s.strip()] *)
Definition strip (s : string) : string := rstrip (lstrip s).

(** [s.replace(old, new)] for a non-empty [old]: occurrences are found
    left to right and do not overlap.  [skip] counts the characters of
    an occurrence already replaced that are still to be passed over. *)
Fixpoint replace_from (skip : nat) (old new s : string) : string :=
  match s with
  | EmptyString => EmptyString
  | String c r =>
      match skip with
      | S k => replace_from k old new r
      | O =>
          if startswith old s
          then new +:+ replace_from (String.length old - 1) old new r
          else String c (replace_from 0 old new r)
      end
  end.

Definition replace (old new s : string) : string := replace_from 0 old new s.

(** [sep.join(parts)] *)
Fixpoint join (sep : string) (parts : list string) : string :=
  match parts with
  | [] => EmptyString
  | [p] => p
  | p :: rest => p +:+ sep +:+ join sep rest
  end.

(** Python truthiness of a [str]. *)
Definition truthy (s : string) : bool := negb (String.eqb s "").

End PyStr.

(** ** Python dictionaries *)

(** A [dict] with [str] keys, in insertion order. *)
Abbreviation dict V := (list (string * V)).

Module PyDict.

(** [d.get(k)], which is [d[k]] when [k in d]. *)
Fixpoint get {V} (k : string) (d : dict V) : option V :=
  match d with
  | [] => None
  | (k', v) :: r => if String.eqb k' k then Some v else get k r
  end.

(** [d[k] = v]: a key already there keeps its place. *)
Fixpoint set {V} (k : string) (v : V) (d : dict V) : dict V :=
  match d with
  | [] => [(k, v)]
  | (k', v') :: r =>
      if String.eqb k' k then (k', v) :: r else (k', v') :: set k v r
  end.

(** [list(d)] *)
Definition keys {V} (d : dict V) : list string := List.map fst d.

(** Python truthiness of a [dict]. *)
Definition truthy {V} (d : dict V) : bool :=
  match d with [] => false | _ :: _ => true end.

End PyDict.

(** ** Python exceptions and floats *)

Inductive exn := AttributeError | IndexError | ValueError.

(** The outcome of code that can raise. *)
Inductive result (A : Type) :=
| Ok (a : A)
| Raise (e : exn).
Arguments Ok {A} a.
Arguments Raise {A} e.

#[global] Instance result_ret : MRet result := fun A a => Ok a.
#[global] Instance result_bind : MBind result := fun A B f r =>
  match r with
  | Ok a => f a
  | Raise e => Raise e
  end.

Definition is_ok {A} (r : result A) : bool :=
  match r with Ok _ => true | Raise _ => false end.

Module PyFloat.
Import PyStr.

(** The value of a run of decimal digits, most significant first. *)
Fixpoint digits_value (acc : N) (s : string) : N :=
  match s with
  | EmptyString => acc
  | String c r => digits_value (acc * 10 + (code c - 48)) r
  end.

Fixpoint before_dot (s : string) : string :=
  match s with
  | EmptyString => EmptyString
  | String c r => if is_dot c then EmptyString else String c (before_dot r)
  end.

Fixpoint after_dot (s : string) : string :=
  match s with
  | EmptyString => EmptyString
  | String c r => if is_dot c then r else after_dot r
  end.

Definition pow10 (k : nat) : positive := Nat.iter k (Pos.mul 10) 1%positive.

(** [float(s)] on a text of digits and points, which is all that the
    price cleaning leaves: a literal has at least one digit and at most
    one point, anything else is a [ValueError].  The value is the
    decimal the literal denotes (CPython then rounds it to the nearest
    binary64; [0.0] is exact).  Texts with other characters never reach
    [float] in this program. *)
Definition float (s : string) : result Q :=
  if all (fun c => is_digit c || is_dot c) s
     && (1 <=? count is_digit s)%nat && (count is_dot s <=? 1)%nat
  then
    let i := before_dot s in
    let f := after_dot s in
    Ok (Z.of_N (digits_value 0 (i +:+ f)) # pow10 (String.length f))
  else Raise ValueError.

End PyFloat.

(** ** The parsed document *)

#[local] Set Warnings "-register-all".

(** A BeautifulSoup tree: text, or a tag with its name, the values of its
    multi-valued [class] attribute, its other attributes and its children.
    The document object is itself a [Tag]. *)
Inductive node :=
| NavigableString (s : string)
| Tag (name : string) (classes : list string) (attrs : dict string)
      (contents : list node).

Module Soup.

(** Every node below [n], in document order. *)
Fixpoint descendants (n : node) : list node :=
  match n with
  | NavigableString _ => []
  | Tag _ _ _ cs =>
      (fix below (l : list node) : list node :=
         match l with
         | [] => []
         | c :: r => c :: descendants c ++ below r
         end) cs
  end.

(** The strings of a node, in document order. *)
Fixpoint strings (n : node) : list string :=
  match n with
  | NavigableString s => [s]
  | Tag _ _ _ cs =>
      (fix below (l : list node) : list string :=
         match l with
         | [] => []
         | c :: r => strings c ++ below r
         end) cs
  end.

(** [n.text] *)
Definition text (n : node) : string := PyStr.join "" (strings n).

(** [n.get_text(separator=sep, strip=True)]: each string is stripped and
    the empty ones are left out. *)
Definition get_text_strip (sep : string) (n : node) : string :=
  PyStr.join sep
    (List.filter PyStr.truthy (List.map PyStr.strip (strings n))).

(** What a search asks of a tag besides its name. *)
Inductive criterion :=
| any
| class_ (c : string)         (* class_='c' *)
| href_search (pat : string)  (* href=re.compile(pat), pat a literal *).

(** A [class_] string matches one of the tag's classes, or all of them
    joined by single spaces. *)
Definition class_matches (c : string) (classes : list string) : bool :=
  existsb (String.eqb c) classes || String.eqb (PyStr.join " " classes) c.

Definition matches (name : string) (q : criterion) (n : node) : bool :=
  match n with
  | NavigableString _ => false
  | Tag nm classes attrs _ =>
      String.eqb nm name &&
      match q with
      | any => true
      | class_ c => class_matches c classes
      | href_search pat =>
          match PyDict.get "href" attrs with
          | Some v => PyStr.contains pat v
          | None => false
          end
      end
  end.

(** [n.find_all(name, ...)] *)
Definition find_all (name : string) (q : criterion) (n : node) : list node :=
  List.filter (matches name q) (descendants n).

(** [n.find(name, ...)]: the first match, or [None]. *)
Definition find (name : string) (q : criterion) (n : node) : option node :=
  head (find_all name q n).

(** [tag.attrs] *)
Definition attrs_of (n : node) : dict string :=
  match n with
  | NavigableString _ => []
  | Tag _ _ a _ => a
  end.

End Soup.

(** ** The network *)

(** [responses n url] is the body the n-th request of the run gets when it
    asks for [url], [None] when [requests.get] or [raise_for_status] raises
    a [RequestException]; [requests] lists the URLs asked so far. *)
Record World := {
  responses : nat -> string -> option string;
  requests : list string
}.

(** [get_page_content(url)]: the exception is caught and becomes [None]. *)
Definition get_page_content (url : string) (w : World) : option string * World :=
  (responses w (length (requests w)) url,
   {| responses := responses w; requests := requests w ++ [url] |}).

(** ** crawler.py: the field extractor *)

(** The values stored in [product_data]. *)
Inductive pyval :=
| VStr (s : string)
| VFloat (q : Q)
| VBool (b : bool).

Module Extractor.
Import Soup.

(** Lines 41-43. [name_div.find('h4')] may be [None], and [None.find]
    raises. *)
Definition product_name (soup : node) : result string :=
  match find "div" (class_ "product-collection__title") soup with
  | Some name_div =>
      match find "h4" any name_div with
      | Some h4 =>
          match find "a" any h4 with
          | Some name_tag => Ok (PyStr.strip (text name_tag))
          | None => Ok "N/A"
          end
      | None => Raise AttributeError
      end
  | None => Ok "N/A"
  end.

(** [re.sub(r'[^\d.]', '', price_text)] *)
Definition clean_price (price_text : string) : string :=
  PyStr.filter (fun c => PyStr.is_digit c || PyStr.is_dot c) price_text.

(** Lines 52-53 and 59-60: clean, then
    [float(cleaned_price) if cleaned_price else 0.0]. *)
Definition price_of_text (price_text : string) : result Q :=
  let cleaned_price := clean_price price_text in
  if PyStr.truthy cleaned_price then PyFloat.float cleaned_price else Ok 0%Q.

(** Lines 46-64. [find_all('span')[-1]] raises on an empty list. *)
Definition price (soup : node) : result Q :=
  match find "div" (class_ "product-collection__price") soup with
  | Some price_span_container =>
      match find "span" (class_ "price--sale") price_span_container with
      | Some price_spans =>
          match last (find_all "span" any price_spans) with
          | Some current_price_tag =>
              price_of_text (PyStr.strip (text current_price_tag))
          | None => Raise IndexError
          end
      | None =>
          match find "span" (class_ "price") price_span_container with
          | Some single_price_tag =>
              let price_text :=
                match find "bdi" any single_price_tag with
                | Some amount_tag => PyStr.strip (text amount_tag)
                | None => PyStr.strip (text single_price_tag)
                end in
              price_of_text price_text
          | None => Ok 0%Q
          end
      end
  | None => Ok 0%Q
  end.

(** Lines 67-69. *)
Definition description (soup : node) : string :=
  match find "div" (class_ "product-collection__description") soup with
  | Some desc_div =>
      match find "p" (class_ "m-0") desc_div with
      | Some desc_tag => get_text_strip " " desc_tag
      | None => "N/A"
      end
  | None => "N/A"
  end.

(** Lines 75-77. *)
Definition category (soup : node) : string :=
  match find "div" (class_ "product-collection__more-info") soup with
  | Some vendor_info_div =>
      match find "a" any vendor_info_div with
      | Some vendor_tag => PyStr.strip (text vendor_tag)
      | None => "N/A"
      end
  | None => "N/A"
  end.

(** Lines 80-88. *)
Definition availability (soup : node) : bool :=
  match find "div" (class_ "product-collection__availability") soup with
  | Some availability_div =>
      match find "span" any availability_div with
      | Some availability_span =>
          PyStr.contains "in stock" (PyStr.lower (text availability_span))
      | None => true
      end
  | None => true
  end.

(** Lines 91-92. *)
Definition img_tag (soup : node) : option node :=
  match find "div" (class_ "rimage") soup with
  | Some rimage_div => find "img" any rimage_div
  | None => None
  end.

(** Lines 94-98. *)
Definition image_url (soup : node) : string :=
  match img_tag soup with
  | Some img =>
      match PyDict.get "data-master" (attrs_of img) with
      | Some master =>
          let base_image_url := PyStr.replace "{width}x" "1000x" master in
          if PyStr.startswith "//" base_image_url
          then "https:" +:+ base_image_url
          else base_image_url
      | None => "N/A"
      end
  | None => "N/A"
  end.

(** The body of the [try] block, lines 40-101: the dictionary is filled
    key by key, in the order of the source; the first lookup that raises
    ends it. *)
Definition try_body (product_url : string) (soup : node)
  : result (dict pyval) :=
  let product_data : dict pyval := [("original_url", VStr product_url)] in
  name ← product_name soup;
  let product_data := PyDict.set "product_name" (VStr name) product_data in
  p ← price soup;
  let product_data := PyDict.set "price" (VFloat p) product_data in
  let product_data := PyDict.set "description" (VStr (description soup)) product_data in
  let product_data := PyDict.set "rating" (VFloat 0) product_data in
  let product_data := PyDict.set "category" (VStr (category soup)) product_data in
  let product_data := PyDict.set "availability" (VBool (availability soup)) product_data in
  let product_data := PyDict.set "image_url" (VStr (image_url soup)) product_data in
  Ok product_data.

(** The keys of a complete record. *)
Definition record_keys : list string :=
  ["original_url"; "product_name"; "price"; "description"; "rating";
   "category"; "availability"; "image_url"].

End Extractor.

(** ** crawler.py: fetching a detail page, and the pagination loop *)

Module Crawler.

(** The source has four [break]s; each prints its own message.  The model
    returns which one ended the loop. *)
Inductive stop :=
| FetchFailed    (* line 117: the listing page could not be fetched *)
| NoProducts     (* line 129: no product card on the page *)
| SameNextPage   (* line 176: the next link points to the current page *)
| NoNextLink     (* line 182: no next link *).

(** Normal completion: every stop but a failed fetch. *)
Definition done (why : stop) : bool :=
  match why with FetchFailed => false | _ => true end.

Section WithLibraries.

(** [BeautifulSoup(html, 'html.parser')] and [requests.compat.urljoin]
    are library code; [urljoin] raises [ValueError] on a reference it
    cannot parse. *)
Variable BeautifulSoup : string -> node.
Variable urljoin : string -> string -> result string.

(** [parse_product_details(product_url)]: [None] when the page cannot be
    fetched or is empty, and when anything in the [try] block raises. *)
Definition parse_product_details (product_url : string) (w : World)
  : option (dict pyval) * World :=
  let '(html_content, w) := get_page_content product_url w in
  match html_content with
  | Some html =>
      if PyStr.truthy html then
        match Extractor.try_body product_url (BeautifulSoup html) with
        | Ok product_data => (Some product_data, w)
        | Raise _ => (None, w)
        end
      else (None, w)
  | None => (None, w)
  end.

(** Line 112. *)
Definition current_page_url (base_shop_url : string) (page_num : nat) : string :=
  if (1 <? page_num)%nat
  then base_shop_url +:+ "/page/" +:+ pretty page_num +:+ "/"
  else base_shop_url.

(** Line 123. *)
Definition product_list_items (soup : node) : list node :=
  Soup.find_all "div" (Soup.class_ "col-sm-6 col-md-4 col-lg-4 col-xl-4") soup.

(** Lines 134-136: the [href] of the card's first link into
    [/products/]. *)
Definition product_link (item : node) : option string :=
  match Soup.find "a" (Soup.href_search "/products/") item with
  | Some product_link_tag => PyDict.get "href" (Soup.attrs_of product_link_tag)
  | None => None
  end.

(** Lines 138-139 and 168-171.  Both calls of [urljoin] stand outside any
    [try]: what it raises leaves [crawl_shop_pages]. *)
Definition absolute (base_shop_url url : string) : result string :=
  if PyStr.startswith "http" url then Ok url else urljoin base_shop_url url.

(** Line 144. *)
Definition is_detail_url (product_url : string) : bool :=
  PyStr.contains "/products/" product_url
  && negb (PyStr.endswith "/" product_url).

(** One turn of the [for] loop, lines 131-148. *)
Definition visit_item (base_shop_url : string) (item : node)
    (st : list (dict pyval) * World)
  : result (list (dict pyval) * World) :=
  let '(all_products_data, w) := st in
  match product_link item with
  | Some href =>
      product_url ← absolute base_shop_url href;
      if is_detail_url product_url then
        let '(product_details, w) := parse_product_details product_url w in
        match product_details with
        | Some d =>
            if PyDict.truthy d then Ok (all_products_data ++ [d], w)
            else Ok (all_products_data, w)
        | None => Ok (all_products_data, w)
        end
      else Ok (all_products_data, w)
  | None => Ok (all_products_data, w)
  end.

(** The [for] loop: a turn that raises ends it. *)
Fixpoint visit_items (base_shop_url : string) (items : list node)
    (st : list (dict pyval) * World)
  : result (list (dict pyval) * World) :=
  match items with
  | [] => Ok st
  | item :: rest =>
      st ← visit_item base_shop_url item st;
      visit_items base_shop_url rest st
  end.

Definition or_else {A} (a b : option A) : option A :=
  match a with Some _ => a | None => b end.

(** Lines 153-164: the [href] of the next link, if there is one. *)
Definition next_page_link_element (soup : node) : option string :=
  match or_else (Soup.find "nav" (Soup.class_ "woocommerce-pagination") soup)
                (Soup.find "div" (Soup.class_ "pagination-bar__wrapper") soup) with
  | Some pagination_nav =>
      match or_else (Soup.find "a" (Soup.class_ "next") pagination_nav)
                    (Soup.find "a" (Soup.class_ "next page-numbers") pagination_nav) with
      | Some next_link_tag => PyDict.get "href" (Soup.attrs_of next_link_tag)
      | None => None
      end
  | None => None
  end.

(** Lines 166-182: what the page says about going on. *)
Definition resolve_next (base_shop_url current : string) (soup : node)
  : result (option stop) :=
  match next_page_link_element soup with
  | Some href =>
      if PyStr.truthy href then
        next_page_url ← absolute base_shop_url href;
        if String.eqb next_page_url current
        then Ok (Some SameNextPage)
        else Ok None
      else Ok (Some NoNextLink)
  | None => Ok (Some NoNextLink)
  end.

(** One turn of the [while True] loop: [inl] a stop, [inr] the next
    [page_num]. *)
Definition crawl_page (base_shop_url : string) (page_num : nat)
    (all_products_data : list (dict pyval)) (w : World)
  : result ((stop + nat) * list (dict pyval) * World) :=
  let current := current_page_url base_shop_url page_num in
  let '(html_content, w) := get_page_content current w in
  match html_content with
  | Some html =>
      if PyStr.truthy html then
        let soup := BeautifulSoup html in
        match product_list_items soup with
        | [] => Ok (inl NoProducts, all_products_data, w)
        | items =>
            st ← visit_items base_shop_url items (all_products_data, w);
            next ← resolve_next base_shop_url current soup;
            match next with
            | Some why => Ok (inl why, st.1, st.2)
            | None => Ok (inr (page_num + 1), st.1, st.2)
            end
        end
      else Ok (inl FetchFailed, all_products_data, w)
  | None => Ok (inl FetchFailed, all_products_data, w)
  end.

(** The [while True] loop, with fuel for its turns: [None] when the fuel
    runs out, [Some (Raise e)] when an exception leaves the function,
    [Some (Ok _)] when it returns. *)
Fixpoint crawl_loop (fuel : nat) (base_shop_url : string) (page_num : nat)
    (all_products_data : list (dict pyval)) (w : World)
  : option (result (stop * list (dict pyval) * World)) :=
  match fuel with
  | O => None
  | S fuel' =>
      match crawl_page base_shop_url page_num all_products_data w with
      | Ok (inl why, all_products_data, w) =>
          Some (Ok (why, all_products_data, w))
      | Ok (inr page_num, all_products_data, w) =>
          crawl_loop fuel' base_shop_url page_num all_products_data w
      | Raise e => Some (Raise e)
      end
  end.

(** [crawl_shop_pages(base_shop_url)] *)
Definition crawl_shop_pages (fuel : nat) (base_shop_url : string) (w : World)
  : option (result (stop * list (dict pyval) * World)) :=
  crawl_loop fuel base_shop_url 1 [] w.

End WithLibraries.

End Crawler.

(** ** scrape.py: image URL and scroll loop *)

Module Rendered.

(** Lines 116-123, for an [img] element that was found: [None] when it
    has no [data-master] or an empty one. *)
Definition image_url (data_master_url : option string) : option string :=
  match data_master_url with
  | Some master =>
      if PyStr.truthy master then
        let image_url := PyStr.replace "{width}x" "1024x" master in
        if negb (PyStr.startswith "http" image_url)
        then Some ("https:" +:+ image_url)
        else Some image_url
      else None
  | None => None
  end.

(** Lines 53-71.  [heights k] is what the k-th evaluation of
    [document.body.scrollHeight] returns: [heights 0] before the loop,
    [heights i] after the i-th scroll.  The result is the number of
    scrolls made when the loop is left. *)
Fixpoint scroll_loop (fuel : nat) (heights : nat -> Z) (scrolls : nat)
    (last_height : Z) : option nat :=
  match fuel with
  | O => None
  | S fuel' =>
      let new_height := heights (S scrolls) in
      if (new_height =? last_height)%Z then Some (S scrolls)
      else scroll_loop fuel' heights (S scrolls) new_height
  end.

Definition scroll (fuel : nat) (heights : nat -> Z) : option nat :=
  scroll_loop fuel heights 0 (heights 0%nat).

End Rendered.

(** ** Fixture pages *)

Module Fixture.

Definition base : string := "https://apniroots.com/collections/sale".

Definition el (name : string) (classes : list string) (children : list node) : node :=
  Tag name classes [] children.

Definition document (children : list node) : node := el "[document]" [] children.

Definition link (classes : list string) (href : string) (label : string) : node :=
  Tag "a" classes [("href", href)] [NavigableString label].

Definition card (href : string) : node :=
  el "div" ["col-sm-6"; "col-md-4"; "col-lg-4"; "col-xl-4"]
     [link [] href "view"].

Definition pagination (href : string) : node :=
  el "div" ["pagination-bar__wrapper"] [link ["next"] href "Next"].

Definition title (name : string) : node :=
  el "div" ["product-collection__title"; "mb-3"]
     [el "h4" ["m-0"] [link [] "/products/x" name]].

Definition sale_price (old new : string) : node :=
  el "div" ["product-collection__price"]
     [el "span" ["price"; "price--sale"]
         [el "span" [] [NavigableString old];
          el "span" [] [NavigableString new]]].

Definition regular_price (amount : string) : node :=
  el "div" ["product-collection__price"]
     [el "span" ["price"] [NavigableString amount]].

Definition stock (label : string) : node :=
  el "div" ["product-collection__availability"]
     [el "p" [] [el "span" [] [NavigableString label]]].

Definition image (master : string) : node :=
  el "div" ["rimage"] [Tag "img" ["rimage__img"] [("data-master", master)] []].

(** A product on sale, in stock, with a protocol-relative image. *)
Definition rice : node :=
  document [title "  Basmati Rice "; sale_price "$12.99" "$9.99";
            stock "5 In Stock"; image "//cdn.site.com/img_{width}x.jpg"].

(** A regular-price product, out of stock, with a site-relative image. *)
Definition lentils : node :=
  document [title "Red Lentils"; regular_price "$4.50";
            stock "Out of stock"; image "/files/lentils.jpg"].

(** A page with no markup the extractor knows. *)
Definition bare : node := document [el "p" [] [NavigableString "hello"]].

(** A sale-price node that holds its amount as plain text. *)
Definition flat_sale_node : node :=
  el "span" ["price"; "price--sale"] [NavigableString "$9.99"].
Definition flat_price_block : node :=
  el "div" ["product-collection__price"] [flat_sale_node].
Definition flat_sale : node := document [title "Ghee"; flat_price_block].

(** A title block without a heading. *)
Definition no_heading : node :=
  document [el "div" ["product-collection__title"] [link [] "/products/x" "Tea"]].

(** A price written with a currency abbreviation and a thousands
    separator. *)
Definition rupees : node :=
  document [title "Saffron"; regular_price "Rs. 1,299.00"].

(** Pages are served as short texts that the table parser maps to their
    trees. *)
Definition parse_table (table : list (string * node)) (html : string) : node :=
  match List.find (fun e => String.eqb (fst e) html) table with
  | Some e => snd e
  | None => document []
  end.

Definition serve (site : list (string * string)) (n : nat) (url : string)
  : option string :=
  match List.find (fun e => String.eqb (fst e) url) site with
  | Some e => Some (snd e)
  | None => None
  end.

Definition world (site : list (string * string)) : World :=
  {| responses := serve site; requests := [] |}.

(** [urljoin] against [base] for the references of the fixtures: a
    reference whose host opens a bracket that is never closed raises
    [ValueError]; one that begins with [//] takes the scheme of [base], one
    that begins with [/] its origin, and a relative path the directory of
    [base]. *)
Definition join_origin (base url : string) : result string :=
  if PyStr.startswith "//" url then
    if PyStr.startswith "//[" url && negb (PyStr.contains "]" url)
    then Raise ValueError
    else Ok ("https:" +:+ url)
  else if PyStr.startswith "/" url then Ok ("https://apniroots.com" +:+ url)
  else Ok ("https://apniroots.com/collections/" +:+ url).

Definition rice_url : string := "https://apniroots.com/products/basmati-rice".
Definition lentils_url : string := "https://apniroots.com/products/red-lentils".
Definition ghee_url : string := "https://apniroots.com/products/ghee".

(** Page 1 links the rice from two cards; its next link leads on.
    Page 2 links the lentils and the rice again and has no next link. *)
Definition listing1 : node :=
  document [card "/products/basmati-rice"; card "/products/basmati-rice";
            card "/products/summer-collection/";
            pagination "/collections/sale/page/2/"].
Definition listing2 : node :=
  document [card "/products/red-lentils"; card "/products/basmati-rice"].

(** A listing page without cards, and one whose next link points back
    to the page itself. *)
Definition empty_listing : node := document [pagination "/collections/sale/page/2/"].
Definition self_listing : node :=
  document [card "/products/basmati-rice"; pagination base].

Definition pages : list (string * node) :=
  [("L1", listing1); ("L2", listing2); ("rice", rice); ("lentils", lentils);
   ("ghee", flat_sale); ("tea", no_heading); ("saffron", rupees);
   ("E", empty_listing); ("S", self_listing); ("bare", bare)].

Definition parser : string -> node := parse_table pages.

Definition tea_url : string := "https://apniroots.com/products/tea".
Definition saffron_url : string := "https://apniroots.com/products/saffron".

Definition shop : World :=
  world [(base, "L1"); (base +:+ "/page/2/", "L2");
         (rice_url, "rice"); (lentils_url, "lentils"); (ghee_url, "ghee");
         (tea_url, "tea"); (saffron_url, "saffron")].


(** Shops whose first page is a last page. *)
Definition empty_shop : World := world [(base, "E")].
Definition self_shop : World := world [(base, "S"); (rice_url, "rice")].
Definition last_page_shop : World := world [(base, "L2"); (rice_url, "rice")].

Definition about_url : string := "https://apniroots.com/about".
Definition about_shop : World := world [(about_url, "bare")].

End Fixture.

(** ** Vocabulary of the statements *)

Module Spec.

Definition digit_or_dot (c : ascii) : bool := PyStr.is_digit c || PyStr.is_dot c.

(** A text of digits and points that [float] accepts. *)
Definition float_literal (c : string) : Prop :=
  (1 <= PyStr.count PyStr.is_digit c)%nat /\ (PyStr.count PyStr.is_dot c <= 1)%nat.

(** A URL that names its protocol. *)
Definition protocol_qualified (url : string) : bool :=
  PyStr.startswith "https://" url || PyStr.startswith "http://" url.

Definition protocol_relative (url : string) : bool := PyStr.startswith "//" url.

(** The availability text node: the first [span] of the availability
    block. *)
Definition availability_node (soup : node) : option node :=
  match Soup.find "div" (Soup.class_ "product-collection__availability") soup with
  | Some d => Soup.find "span" Soup.any d
  | None => None
  end.

(** The record whose fields all hold their defaults. *)
Definition default_record (product_url : string) : dict pyval :=
  [("original_url", VStr product_url); ("product_name", VStr "N/A");
   ("price", VFloat 0); ("description", VStr "N/A"); ("rating", VFloat 0);
   ("category", VStr "N/A"); ("availability", VBool true);
   ("image_url", VStr "N/A")].

(** The record the extractor builds from a name, a price and the fields
    that cannot raise. *)
Definition record_of (product_url name : string) (p : Q) (soup : node)
  : dict pyval :=
  [("original_url", VStr product_url); ("product_name", VStr name);
   ("price", VFloat p); ("description", VStr (Extractor.description soup));
   ("rating", VFloat 0); ("category", VStr (Extractor.category soup));
   ("availability", VBool (Extractor.availability soup));
   ("image_url", VStr (Extractor.image_url soup))].


(** The world after one more request. *)
Definition asked (url : string) (w : World) : World :=
  {| responses := responses w; requests := requests w ++ [url] |}.


(** Every link of these cards resolves: [urljoin] does not raise on it. *)
Definition links_resolve (urljoin : string -> string -> result string)
    (base_shop_url : string) (items : list node) : Prop :=
  Forall (fun item =>
            forall href,
              Crawler.product_link item = Some href ->
              is_ok (Crawler.absolute urljoin base_shop_url href) = true)
    items.





(** The three kinds of last page: no product card; no pagination region
    or no next link in it; a next link that resolves to the current
    page. *)
Inductive final_page (urljoin : string -> string -> result string)
    (base_shop_url current : string) (soup : node) : Prop :=
| no_cards :
    Crawler.product_list_items soup = [] ->
    final_page urljoin base_shop_url current soup
| no_region :
    Soup.find "nav" (Soup.class_ "woocommerce-pagination") soup = None ->
    Soup.find "div" (Soup.class_ "pagination-bar__wrapper") soup = None ->
    final_page urljoin base_shop_url current soup
| no_next_link region :
    Crawler.or_else
      (Soup.find "nav" (Soup.class_ "woocommerce-pagination") soup)
      (Soup.find "div" (Soup.class_ "pagination-bar__wrapper") soup)
      = Some region ->
    Soup.find "a" (Soup.class_ "next") region = None ->
    Soup.find "a" (Soup.class_ "next page-numbers") region = None ->
    final_page urljoin base_shop_url current soup
| next_is_current href :
    Crawler.next_page_link_element soup = Some href ->
    Crawler.absolute urljoin base_shop_url href = Ok current ->
    final_page urljoin base_shop_url current soup.

(** The document has none of the blocks the extractor looks for. *)
Definition no_known_block (soup : node) : Prop :=
  Forall (fun c => Soup.find "div" (Soup.class_ c) soup = None)
    ["product-collection__title"; "product-collection__price";
     "product-collection__description"; "product-collection__more-info";
     "product-collection__availability"; "rimage"].

(** A finite run of height measurements; the page keeps its last height
    afterwards. *)
Definition measured (hs : list Z) (k : nat) : Z := nth k hs (List.last hs 0%Z).

End Spec.

(** ** scrape.py: the popup and the product elements *)

Module Popup.

(** How an awaited Playwright call ends: it returns, it raises
    [TimeoutError], or it raises another [Exception]. *)
Inductive outcome := Returns | TimesOut | Fails.

(** What the page does to the three calls of the [try] block, lines
    23, 29 and 36. *)
Record popup := {
  wait_visible : outcome;
  click_close : outcome;
  wait_hidden : outcome
}.

(** What the script does to the page. *)
Inductive action := WaitVisible | ClickClose | Sleep | WaitHidden | PressEscape.

(** A [try] block: the calls are made in order up to the first one that
    raises. *)
Fixpoint try_block (calls : list (action * outcome)) : list action * outcome :=
  match calls with
  | [] => ([], Returns)
  | (a, Returns) :: rest =>
      let '(made, o) := try_block rest in (a :: made, o)
  | (a, o) :: _ => ([a], o)
  end.

(** Lines 19-46: [except TimeoutError] only prints; [except Exception]
    presses Escape and sleeps. *)
Definition handle_popup (p : popup) : list action :=
  let '(made, o) :=
    try_block [(WaitVisible, wait_visible p); (ClickClose, click_close p);
               (Sleep, Returns); (WaitHidden, wait_hidden p)] in
  match o with
  | Returns => made
  | TimesOut => made
  | Fails => made ++ [PressEscape; Sleep]
  end.

End Popup.

Module Scrape.

Section WithPlaywright.

(** [page.query_selector_all(selector)] and [elem.query_selector(selector)]
    are Playwright's; an element handle is the node it points to. *)
Variable query_selector_all : string -> node -> list node.
Variable query_selector : string -> node -> option node.

(** [await e.text_content() if e else None] *)
Definition text_content (e : option node) : option string :=
  match e with
  | Some n => Some (Soup.text n)
  | None => None
  end.

(** Lines 89-97. *)
Definition price (product_elem : node) : option string :=
  let price_element_sale :=
    query_selector "span.price--sale[data-js-product-price]" product_elem in
  let price_element_regular :=
    query_selector "span.price[data-js-product-price]" product_elem in
  match price_element_sale with
  | Some _ => text_content price_element_sale
  | None =>
      match price_element_regular with
      | Some _ => text_content price_element_regular
      | None => None
      end
  end.

(** Lines 114-125. *)
Definition image_url (product_elem : node) : option string :=
  match query_selector "img.rimage__img" product_elem with
  | Some img_element =>
      Rendered.image_url (PyDict.get "data-master" (Soup.attrs_of img_element))
  | None => None
  end.

(** One turn of the [for] loop, lines 82-125; [None] is Python's [None]. *)
Definition product_of (product_elem : node) : dict (option string) :=
  let product : dict (option string) := [] in
  let product :=
    PyDict.set "Product Name"
      (text_content (query_selector "h4 a" product_elem)) product in
  let product := PyDict.set "Price" (price product_elem) product in
  let product :=
    PyDict.set "Description"
      (text_content
         (query_selector "p.product-collection__description" product_elem))
      product in
  let product := PyDict.set "Rating" None product in
  let product := PyDict.set "Category" (Some "Sale") product in
  let product :=
    PyDict.set "Availability"
      (text_content
         (query_selector "p[data-js-product-availability] span:nth-child(2)"
            product_elem))
      product in
  let product := PyDict.set "Image URL" (image_url product_elem) product in
  product.

(** Lines 79-127: [products_data] after the loop. *)
Definition extract (page : node) : list (dict (option string)) :=
  List.map product_of
    (query_selector_all "product-item.product-collection" page).

End WithPlaywright.

End Scrape.

(** ** More vocabulary *)

Module Shape.

(** A class token as the parser produces it: not empty and free of
    spaces. *)
Definition token (c : string) : Prop :=
  c <> "" /\ PyStr.contains " " c = false.

(** The classes of a node, none for a text. *)
Definition classes_of (n : node) : list string :=
  match n with
  | NavigableString _ => []
  | Tag _ classes _ _ => classes
  end.

Definition name_of (n : node) : option string :=
  match n with
  | NavigableString _ => None
  | Tag name _ _ _ => Some name
  end.

(** Every tag below [n] carries class tokens. *)
Definition tokenized (n : node) : Prop :=
  Forall (fun m => Forall token (classes_of m)) (Soup.descendants n).

(** The first and the last character of a text. *)
Definition first_char (s : string) : option ascii :=
  match s with
  | EmptyString => None
  | String c _ => Some c
  end.

Fixpoint last_char (s : string) : option ascii :=
  match s with
  | EmptyString => None
  | String c EmptyString => Some c
  | String _ r => last_char r
  end.

(** A text without blanks at its ends. *)
Definition trimmed (s : string) : Prop :=
  forall c, first_char s = Some c \/ last_char s = Some c ->
            PyStr.is_space c = false.

(** A URL the crawler may ask for: a listing page or a detail page. *)
Definition crawl_url (base_shop_url url : string) : Prop :=
  (exists page_num, url = Crawler.current_page_url base_shop_url page_num)
  \/ Crawler.is_detail_url url = true.

(** A complete record: the eight keys in the order of the source, a
    rating of 0.0 and a price that is not negative. *)
Definition complete (d : dict pyval) : Prop :=
  PyDict.keys d = Extractor.record_keys /\
  PyDict.get "rating" d = Some (VFloat 0) /\
  exists q, PyDict.get "price" d = Some (VFloat q) /\ (0 <= q)%Q.

(** [st'] comes after [st] in a crawl from [base_shop_url]: only crawl
    URLs were asked for, and only complete records were gained. *)
Definition grows (base_shop_url : string)
    (st st' : list (dict pyval) * World) : Prop :=
  exists new recs,
    requests st'.2 = requests st.2 ++ new /\
    responses st'.2 = responses st.2 /\
    st'.1 = st.1 ++ recs /\
    Forall (crawl_url base_shop_url) new /\
    Forall complete recs.

(** A catalog without end: every listing page has a card and a next link
    that leads elsewhere. *)
Definition endless (BeautifulSoup : string -> node)
    (urljoin : string -> string -> result string) (base_shop_url : string)
    (w : World) : Prop :=
  forall n page_num,
    exists html href,
      responses w n (Crawler.current_page_url base_shop_url page_num)
        = Some html /\
      html <> "" /\
      Crawler.product_list_items (BeautifulSoup html) <> [] /\
      Crawler.next_page_link_element (BeautifulSoup html) = Some href /\
      href <> "" /\
      Crawler.absolute urljoin base_shop_url href
        <> Ok (Crawler.current_page_url base_shop_url page_num).

(** The keys of a product of the rendering scraper. *)
Definition product_keys : list string :=
  ["Product Name"; "Price"; "Description"; "Rating"; "Category";
   "Availability"; "Image URL"].

End Shape.

(** ** More fixtures *)

Module Endless.

(** Every address answers with the same listing page: one card, and a next
    link that is not a listing address. *)
Definition listing : node :=
  Fixture.document [Fixture.card "/products/basmati-rice";
                    Fixture.pagination "/collections/sale?page=next"].

Definition parser (html : string) : node := listing.

Definition shop : World :=
  {| responses := fun _ _ => Some "page"; requests := [] |}.

(** A shop whose first page comes back with an empty body. *)
Definition silent_shop : World := Fixture.world [(Fixture.base, "")].


(** A listing page whose card links to a host that opens a bracket and
    never closes it. *)
Definition bracket_listing : node :=
  Fixture.document [Fixture.card "//[/products/x"].

Definition bracket_parser (html : string) : node := bracket_listing.

(** [urljoin] on a site whose references are all site-absolute paths. *)
Definition join (base url : string) : result string :=
  Ok ("https://apniroots.com" +:+ url).

End Endless.

Module Rendering.

(** A rendered page with two product elements, the first on sale; and
    selector functions that serve the selectors of the script on it. *)
Definition sale_element : node :=
  Tag "span" ["price"; "price--sale"] [("data-js-product-price", "")]
      [NavigableString "$9.99"].

Definition on_sale : node :=
  Fixture.el "product-item" ["product-collection"]
    [sale_element;
     Tag "span" ["price"] [("data-js-product-price", "")]
         [NavigableString "$12.99"]].

Definition plain : node := Fixture.el "product-item" ["product-collection"] [].

Definition page : node := Fixture.document [on_sale; plain].

Definition query_selector_all (selector : string) (n : node) : list node :=
  if String.eqb selector "product-item.product-collection"
  then Soup.find_all "product-item" (Soup.class_ "product-collection") n
  else [].

Definition query_selector (selector : string) (n : node) : option node :=
  if String.eqb selector "span.price--sale[data-js-product-price]"
  then Soup.find "span" (Soup.class_ "price--sale") n
  else if String.eqb selector "span.price[data-js-product-price]"
  then Soup.find "span" (Soup.class_ "price") n
  else None.

End Rendering.

(** * Theorems *)

(** ** Strings *)

Lemma startswith_spec p s :
  PyStr.startswith p s = true <-> exists r, s = p +:+ r.
Proof.
  revert s. induction p as [|a p IH]; intros s; simpl.
  - split; [intros _; by exists s | done].
  - destruct s as [|b s].
    + split; [done | intros [r Hr]; discriminate].
    + rewrite andb_true_iff, Ascii.eqb_eq, IH. split.
      * intros [-> [r ->]]. by exists r.
      * intros [r Hr]. injection Hr as -> ->. eauto.
Qed.

Lemma contains_spec p s :
  PyStr.contains p s = true <-> exists a b, s = a +:+ p +:+ b.
Proof.
  induction s as [|c s IH].
  - cbn [PyStr.contains]. rewrite orb_false_r, startswith_spec. split.
    + intros [r Hr]. by exists "", r.
    + intros [a [b Hab]]. destruct a; [by exists b | discriminate].
  - cbn [PyStr.contains]. rewrite orb_true_iff, startswith_spec, IH. split.
    + intros [[r Hr] | [a [b Hab]]].
      * by exists "", r.
      * exists (String c a), b. simpl. by rewrite Hab.
    + intros [a [b Hab]]. destruct a as [|c' a].
      * left. by exists b.
      * right. simpl in Hab. injection Hab as -> ->. eauto.
Qed.


Lemma filter_all p s : PyStr.all p (PyStr.filter p s) = true.
Proof.
  induction s as [|c s IH]; simpl; [done |].
  destruct (p c) eqn:Hc; simpl; [by rewrite Hc | done].
Qed.

Lemma truthy_empty s : PyStr.truthy s = false <-> s = "".
Proof.
  unfold PyStr.truthy. rewrite negb_false_iff. apply String.eqb_eq.
Qed.

Lemma truthy_nonempty s : PyStr.truthy s = true <-> s <> "".
Proof.
  unfold PyStr.truthy. rewrite negb_true_iff. apply String.eqb_neq.
Qed.


(** ** The price *)

Lemma float_nonneg c q : PyFloat.float c = Ok q -> (0 <= q)%Q.
Proof.
  unfold PyFloat.float. case_match; [| done].
  intros [= <-]. unfold Qle. simpl. lia.
Qed.

Lemma float_accepts c :
  PyStr.all Spec.digit_or_dot c = true ->
  (is_ok (PyFloat.float c) = true <-> Spec.float_literal c).
Proof.
  intros Hall. unfold PyFloat.float, Spec.float_literal.
  fold Spec.digit_or_dot. rewrite Hall.
  rewrite <- (Nat.leb_le 1), <- (Nat.leb_le _ 1).
  destruct (1 <=? PyStr.count PyStr.is_digit c)%nat,
    (PyStr.count PyStr.is_dot c <=? 1)%nat; cbn [andb is_ok]; intuition congruence.
Qed.

Lemma float_rejects c :
  is_ok (PyFloat.float c) = false -> PyFloat.float c = Raise ValueError.
Proof. unfold PyFloat.float. by case_match. Qed.

(** C2 (amended). For every price text the cleaning leaves only digits and
    decimal points (any number of points).  Empty cleaned text yields
    exactly 0.0.  Non-empty cleaned text goes to the float parse: a literal
    (at least one digit, at most one point) yields its non-negative value,
    anything else raises [ValueError]. *)
Theorem price_cleaning_and_parse (price_text : string) :
  let cleaned := Extractor.clean_price price_text in
  PyStr.all Spec.digit_or_dot cleaned = true /\
  (cleaned = "" -> Extractor.price_of_text price_text = Ok 0%Q) /\
  (cleaned <> "" -> Spec.float_literal cleaned ->
   exists q, Extractor.price_of_text price_text = Ok q /\ (0 <= q)%Q) /\
  (cleaned <> "" -> ~ Spec.float_literal cleaned ->
   Extractor.price_of_text price_text = Raise ValueError).
Proof.
  intros cleaned.
  assert (Hall : PyStr.all Spec.digit_or_dot cleaned = true) by apply filter_all.
  pose proof (float_accepts cleaned Hall) as Hacc.
  unfold Extractor.price_of_text. fold cleaned.
  repeat split; [done | ..].
  - intros ->. reflexivity.
  - intros Hne Hlit. apply truthy_nonempty in Hne. rewrite Hne.
    apply Hacc in Hlit. destruct (PyFloat.float cleaned) as [q|e] eqn:Hf; [| done].
    exists q. split; [done | by apply float_nonneg in Hf].
  - intros Hne Hlit. apply truthy_nonempty in Hne. rewrite Hne.
    apply float_rejects. apply not_true_is_false. intros Hok.
    by apply Hlit, Hacc.
Qed.

Lemma price_cleaning_and_parse_witness :
  Extractor.price_of_text "Sold out" = Ok 0%Q /\
  (exists q, Extractor.price_of_text "$12.50" = Ok q /\ (0 <= q)%Q) /\
  Extractor.price_of_text "Rs. 1,299.00" = Raise ValueError.
Proof.
  split; [| split].
  - apply (price_cleaning_and_parse "Sold out"). reflexivity.
  - apply (price_cleaning_and_parse "$12.50"); [discriminate |].
    split; simpl; lia.
  - apply (price_cleaning_and_parse "Rs. 1,299.00"); [discriminate |].
    intros [_ H]. simpl in H. lia.
Defined.

(** C2 as stated fails: the cleaned text of "Rs. 1,299.00" holds two
    decimal points, and parsing it raises instead of yielding 0.0. *)
Lemma price_text_with_two_points :
  Extractor.clean_price "Rs. 1,299.00" = ".1299.00" /\
  PyStr.count PyStr.is_dot (Extractor.clean_price "Rs. 1,299.00") = 2%nat /\
  Extractor.price_of_text "Rs. 1,299.00" = Raise ValueError /\
  Extractor.price_of_text "Rs. 1,299.00" <> Ok 0%Q.
Proof. repeat split. discriminate. Qed.

(** ** Availability *)

Lemma try_body_ok (product_url : string) (soup : node) (d : dict pyval) :
  Extractor.try_body product_url soup = Ok d <->
  exists name p,
    Extractor.product_name soup = Ok name /\ Extractor.price soup = Ok p /\
    d = Spec.record_of product_url name p soup.
Proof.
  unfold Extractor.try_body, mbind, result_bind.
  destruct (Extractor.product_name soup) as [name|e].
  - destruct (Extractor.price soup) as [p|e].
    + split.
      * intros [= <-]. by exists name, p.
      * intros (? & ? & [= <-] & [= <-] & ->). reflexivity.
    + split; [done | by intros (? & ? & _ & ? & _)].
  - split; [done | by intros (? & ? & ? & _)].
Qed.

Lemma try_body_raise (product_url : string) (soup : node) (e : exn) :
  Extractor.try_body product_url soup = Raise e <->
  Extractor.product_name soup = Raise e \/
  (is_ok (Extractor.product_name soup) = true /\ Extractor.price soup = Raise e).
Proof.
  unfold Extractor.try_body, mbind, result_bind.
  destruct (Extractor.product_name soup) as [name|e1].
  - destruct (Extractor.price soup) as [p|e2]; simpl; intuition congruence.
  - simpl. intuition congruence.
Qed.

(** C5. With no availability text node the availability is true; with one
    it is true exactly when the lower-cased text contains "in stock":
    "Out of stock" gives false, "5 In Stock" gives true.  Every record the
    extractor returns carries that value. *)
Theorem availability_truth_table (soup : node) :
  (Spec.availability_node soup = None -> Extractor.availability soup = true) /\
  (forall span, Spec.availability_node soup = Some span ->
     Extractor.availability soup
       = PyStr.contains "in stock" (PyStr.lower (Soup.text span)) /\
     (Soup.text span = "Out of stock" -> Extractor.availability soup = false) /\
     (Soup.text span = "5 In Stock" -> Extractor.availability soup = true)) /\
  (forall product_url d, Extractor.try_body product_url soup = Ok d ->
     PyDict.get "availability" d = Some (VBool (Extractor.availability soup))).
Proof.
  unfold Spec.availability_node, Extractor.availability.
  split; [| split].
  - destruct (Soup.find "div" _ soup) as [d|]; [| done].
    by intros ->.
  - intros span.
    destruct (Soup.find "div" _ soup) as [d|]; [| done].
    intros ->. split; [done |]. split; by intros ->.
  - intros product_url d (name & p & _ & _ & ->)%try_body_ok.
    reflexivity.
Qed.

Lemma availability_truth_table_witness :
  Extractor.availability Fixture.bare = true /\
  Extractor.availability Fixture.lentils = false /\
  Extractor.availability Fixture.rice = true.
Proof.
  split; [| split].
  - apply (availability_truth_table Fixture.bare). reflexivity.
  - pose proof (availability_truth_table Fixture.lentils) as (_ & H & _).
    apply (H (Fixture.el "span" [] [NavigableString "Out of stock"])); reflexivity.
  - pose proof (availability_truth_table Fixture.rice) as (_ & H & _).
    apply (H (Fixture.el "span" [] [NavigableString "5 In Stock"])); reflexivity.
Defined.

(** ** The image URL *)

Lemma qualified_not_relative url :
  Spec.protocol_qualified url = true -> Spec.protocol_relative url = false.
Proof.
  unfold Spec.protocol_qualified, Spec.protocol_relative.
  destruct url as [|c url]; [done |]. cbn [PyStr.startswith].
  destruct (Ascii.eqb_spec "h" c) as [<- | _]; [done |].
  cbn [andb orb]. discriminate.
Qed.

Lemma prefixed_is_qualified url :
  Spec.protocol_relative url = true ->
  Spec.protocol_qualified ("https:" +:+ url) = true.
Proof.
  unfold Spec.protocol_relative. intros [r ->]%startswith_spec.
  unfold Spec.protocol_qualified. apply orb_true_iff. left.
  apply startswith_spec. by exists r.
Qed.

(** C6 (amended). For the image source left by the width substitution: a
    protocol-relative URL is rewritten by prefixing https:, and every other
    source, an absolute URL included, is passed through unchanged; so the
    emitted imageURL is protocol-qualified exactly when its source is
    protocol-relative or already protocol-qualified.  The rendering
    variant prefixes https: to every source that is not empty and does not
    begin with http, passes on the ones that begin with http, and gives no
    URL for an empty source. *)
Theorem image_url_normalisation (soup img : node) (master : string) :
  Extractor.img_tag soup = Some img ->
  PyDict.get "data-master" (Soup.attrs_of img) = Some master ->
  let src := PyStr.replace "{width}x" "1000x" master in
  let src' := PyStr.replace "{width}x" "1024x" master in
  (Spec.protocol_relative src = true ->
   Extractor.image_url soup = "https:" +:+ src) /\
  (Spec.protocol_relative src = false -> Extractor.image_url soup = src) /\
  (Spec.protocol_qualified src = true -> Extractor.image_url soup = src) /\
  Spec.protocol_qualified (Extractor.image_url soup)
    = Spec.protocol_relative src || Spec.protocol_qualified src /\
  (Spec.protocol_relative src' = true ->
   Rendered.image_url (Some master) = Some ("https:" +:+ src')) /\
  (PyStr.startswith "http" src' = true ->
   Rendered.image_url (Some master) = Some src') /\
  (master <> "" -> PyStr.startswith "http" src' = false ->
   Rendered.image_url (Some master) = Some ("https:" +:+ src')) /\
  (master = "" -> Rendered.image_url (Some master) = None).
Proof.
  intros Himg Hmaster src src'.
  assert (Hurl : Extractor.image_url soup
                 = if Spec.protocol_relative src then "https:" +:+ src else src).
  { unfold Extractor.image_url. by rewrite Himg, Hmaster. }
  repeat split.
  - intros H. by rewrite Hurl, H.
  - intros H. by rewrite Hurl, H.
  - intros H%qualified_not_relative. by rewrite Hurl, H.
  - rewrite Hurl. destruct (Spec.protocol_relative src) eqn:Hrel; [| done].
    by apply prefixed_is_qualified.
  - subst src'. destruct master as [|c m]; [done |].
    unfold Rendered.image_url, Spec.protocol_relative.
    cbn [PyStr.truthy String.eqb negb].
    intros [r Hr]%startswith_spec. rewrite Hr. reflexivity.
  - subst src'. destruct master as [|c m]; [done |].
    unfold Rendered.image_url. cbn [PyStr.truthy String.eqb negb].
    by intros ->.
  - subst src'. intros Hne%truthy_nonempty Hhttp.
    unfold Rendered.image_url. by rewrite Hne, Hhttp.
  - by intros ->.
Qed.

Lemma image_url_normalisation_witness :
  Extractor.image_url Fixture.rice = "https://cdn.site.com/img_1000x.jpg" /\
  Extractor.image_url Fixture.lentils = "/files/lentils.jpg" /\
  Rendered.image_url (Some "//cdn.site.com/img_{width}x.jpg")
    = Some "https://cdn.site.com/img_1024x.jpg" /\
  Rendered.image_url (Some "/files/lentils.jpg")
    = Some "https:/files/lentils.jpg".
Proof.
  destruct (image_url_normalisation Fixture.rice
              (Tag "img" ["rimage__img"]
                   [("data-master", "//cdn.site.com/img_{width}x.jpg")] [])
              "//cdn.site.com/img_{width}x.jpg" eq_refl eq_refl)
    as (Hrelative & _ & _ & _ & Hrendered & _).
  destruct (image_url_normalisation Fixture.lentils
              (Tag "img" ["rimage__img"] [("data-master", "/files/lentils.jpg")] [])
              "/files/lentils.jpg" eq_refl eq_refl)
    as (_ & Hother & _ & _ & _ & _ & Hprefixed & _).
  split; [| split; [| split]].
  - apply Hrelative. reflexivity.
  - apply Hother. reflexivity.
  - apply Hrendered. reflexivity.
  - apply Hprefixed; [discriminate | reflexivity].
Defined.

(** C6 as stated fails: a site-relative image source is emitted as it is,
    neither the default nor protocol-qualified. *)
Lemma site_relative_image_is_emitted :
  Extractor.image_url Fixture.lentils = "/files/lentils.jpg" /\
  Extractor.image_url Fixture.lentils <> "N/A" /\
  Spec.protocol_qualified (Extractor.image_url Fixture.lentils) = false.
Proof. repeat split. discriminate. Qed.

(** ** The scroll loop *)

(** What the loop does: it leaves at the first scroll after which the
    height equals the height before it. *)
Lemma scroll_loop_exit (heights : nat -> Z) (m : nat) :
  forall scrolls fuel,
    (forall j, (j < m)%nat ->
               heights (scrolls + S j)%nat <> heights (scrolls + j)%nat) ->
    heights (scrolls + S m)%nat = heights (scrolls + m)%nat ->
    (S m <= fuel)%nat ->
    Rendered.scroll_loop fuel heights scrolls (heights scrolls)
      = Some (scrolls + S m)%nat.
Proof.
  induction m as [|m IH]; intros scrolls fuel Hne Heq Hfuel;
    (destruct fuel as [|fuel]; [lia |]); cbn [Rendered.scroll_loop].
  - rewrite Nat.add_1_r, Nat.add_0_r in *.
    rewrite Heq, Z.eqb_refl. reflexivity.
  - destruct (Z.eqb_spec (heights (S scrolls)) (heights scrolls)) as [E | _].
    + exfalso. apply (Hne 0%nat); [lia |].
      by rewrite Nat.add_1_r, Nat.add_0_r.
    + rewrite (Nat.add_succ_r scrolls (S m)), <- Nat.add_succ_l.
      apply IH; [| | lia].
      * intros j Hj. rewrite Nat.add_succ_l, <- Nat.add_succ_r.
        rewrite (Nat.add_succ_l scrolls j), <- (Nat.add_succ_r scrolls j).
        apply Hne. lia.
      * rewrite Nat.add_succ_l, <- Nat.add_succ_r.
        by rewrite (Nat.add_succ_l scrolls m), <- (Nat.add_succ_r scrolls m).
Qed.

(** C9, at the measurements 100, 90, 90: after the first scroll the height
    is not greater than before, yet the loop scrolls again and leaves only
    after the second scroll. *)
Theorem scroll_loop_continues_after_decrease :
  let heights := Spec.measured [100; 90; 90]%Z in
  (heights 1%nat <= heights 0%nat)%Z /\
  Rendered.scroll 5 heights = Some 2%nat /\
  (forall fuel, Rendered.scroll fuel heights <> Some 1%nat).
Proof.
  intros heights. split; [by vm_compute |]. split; [reflexivity |].
  intros [|fuel]; [done |]. destruct fuel; discriminate.
Qed.

(** ** The extractor as a whole *)

Lemma record_of_complete product_url name p soup :
  PyDict.keys (Spec.record_of product_url name p soup) = Extractor.record_keys /\
  PyDict.get "original_url" (Spec.record_of product_url name p soup)
    = Some (VStr product_url).
Proof. split; reflexivity. Qed.

Lemma defaults_without_blocks product_url soup :
  Spec.no_known_block soup ->
  Extractor.try_body product_url soup = Ok (Spec.default_record product_url).
Proof.
  unfold Spec.no_known_block. rewrite !Forall_cons.
  intros (Ht & Hp & Hd & Hm & Ha & Hi & _).
  apply try_body_ok. exists "N/A", 0%Q.
  unfold Extractor.product_name, Extractor.price. rewrite Ht, Hp.
  split; [done |]. split; [done |].
  unfold Spec.record_of, Extractor.image_url, Extractor.img_tag,
    Extractor.availability, Extractor.category, Extractor.description.
  by rewrite Hd, Hm, Ha, Hi.
Qed.

Lemma field_defaults soup :
  let absent c := Soup.find "div" (Soup.class_ c) soup = None in
  (absent "product-collection__title" -> Extractor.product_name soup = Ok "N/A") /\
  (absent "product-collection__price" -> Extractor.price soup = Ok 0%Q) /\
  (absent "product-collection__description" -> Extractor.description soup = "N/A") /\
  (absent "product-collection__more-info" -> Extractor.category soup = "N/A") /\
  (absent "product-collection__availability" -> Extractor.availability soup = true) /\
  (absent "rimage" -> Extractor.image_url soup = "N/A").
Proof.
  unfold Extractor.product_name, Extractor.price, Extractor.description,
    Extractor.category, Extractor.availability, Extractor.image_url,
    Extractor.img_tag.
  cbv zeta. repeat split; by intros ->.
Qed.

Lemma head_filter_none {A} (p : A -> bool) (l : list A) :
  head (List.filter p l) = None <-> forall x, In x l -> p x = false.
Proof.
  induction l as [|a l IH]; [done |]. cbn [List.filter].
  destruct (p a) eqn:Ha.
  - split; [done |]. intros H. rewrite (H a) in Ha; [done | by left].
  - rewrite IH. split.
    + intros H x [<- | Hx]; auto.
    + intros H x Hx. apply H. by right.
Qed.


Section CrawlerFacts.

Variable BeautifulSoup : string -> node.
Variable urljoin : string -> string -> result string.

#[local] Abbreviation parse_product_details :=
  (Crawler.parse_product_details BeautifulSoup).
#[local] Abbreviation absolute := (Crawler.absolute urljoin).
#[local] Abbreviation visit_item := (Crawler.visit_item BeautifulSoup urljoin).
#[local] Abbreviation visit_items := (Crawler.visit_items BeautifulSoup urljoin).
#[local] Abbreviation resolve_next := (Crawler.resolve_next urljoin).
#[local] Abbreviation crawl_page := (Crawler.crawl_page BeautifulSoup urljoin).
#[local] Abbreviation crawl_loop := (Crawler.crawl_loop BeautifulSoup urljoin).
#[local] Abbreviation crawl_shop_pages :=
  (Crawler.crawl_shop_pages BeautifulSoup urljoin).
#[local] Abbreviation product_link := Crawler.product_link.
#[local] Abbreviation is_detail_url := Crawler.is_detail_url.
#[local] Abbreviation current_page_url := Crawler.current_page_url.
#[local] Abbreviation product_list_items := Crawler.product_list_items.
#[local] Abbreviation next_page_link_element := Crawler.next_page_link_element.

(** *** Fetching and extracting one detail page *)

Lemma parse_product_details_unfold product_url w :
  parse_product_details product_url w =
  (match responses w (length (requests w)) product_url with
   | Some html =>
       if PyStr.truthy html then
         match Extractor.try_body product_url (BeautifulSoup html) with
         | Ok d => Some d
         | Raise _ => None
         end
       else None
   | None => None
   end, Spec.asked product_url w).
Proof.
  unfold Crawler.parse_product_details, get_page_content, Spec.asked.
  destruct (responses w _ _) as [html|]; [| done].
  destruct (PyStr.truthy html); [| done].
  by destruct (Extractor.try_body _ _).
Qed.

Lemma parse_product_details_record product_url w d :
  (parse_product_details product_url w).1 = Some d ->
  PyDict.get "original_url" d = Some (VStr product_url) /\
  PyDict.keys d = Extractor.record_keys /\
  PyDict.truthy d = true.
Proof.
  rewrite parse_product_details_unfold. cbn [fst].
  destruct (responses w _ _) as [html|]; [| done].
  destruct (PyStr.truthy html); [| done].
  destruct (Extractor.try_body _ _) as [d'|] eqn:Hbody; [| done].
  intros [= ->]. apply try_body_ok in Hbody as (name & p & _ & _ & ->).
  done.
Qed.

(** C1 (amended). For every fetched product-detail document the extractor
    returns either a fully-populated record or no record at all, and no
    error reaches the caller: a record, with all eight keys, when no
    lookup raises, with the default in every field whose block is
    absent; nothing when a lookup raises, since errors are caught once
    for the whole extraction and not per field. *)
Theorem extraction_record_or_nothing (product_url html : string) (w : World) :
  responses w (length (requests w)) product_url = Some html ->
  html <> "" ->
  let soup := BeautifulSoup html in
  ((exists name p,
      Extractor.product_name soup = Ok name /\ Extractor.price soup = Ok p /\
      parse_product_details product_url w
        = (Some (Spec.record_of product_url name p soup),
           Spec.asked product_url w) /\
      PyDict.keys (Spec.record_of product_url name p soup)
        = Extractor.record_keys)
   \/
   (exists e,
      Extractor.try_body product_url soup = Raise e /\
      parse_product_details product_url w = (None, Spec.asked product_url w)))
  /\
  (let absent c := Soup.find "div" (Soup.class_ c) soup = None in
   (absent "product-collection__title" -> Extractor.product_name soup = Ok "N/A") /\
   (absent "product-collection__price" -> Extractor.price soup = Ok 0%Q) /\
   (absent "product-collection__description" -> Extractor.description soup = "N/A") /\
   (absent "product-collection__more-info" -> Extractor.category soup = "N/A") /\
   (absent "product-collection__availability" -> Extractor.availability soup = true) /\
   (absent "rimage" -> Extractor.image_url soup = "N/A"))
  /\
  (Spec.no_known_block soup ->
   parse_product_details product_url w
     = (Some (Spec.default_record product_url), Spec.asked product_url w)).
Proof.
  intros Hfetch Hne%truthy_nonempty soup.
  rewrite parse_product_details_unfold, Hfetch, Hne. fold soup.
  split; [| split; [apply field_defaults |]].
  - destruct (Extractor.try_body product_url soup) as [d|e] eqn:Hbody.
    + left. apply try_body_ok in Hbody as (name & p & Hn & Hp & ->).
      exists name, p. split; [done |]. split; [done |]. split; [done |].
      apply record_of_complete.
    + right. by exists e.
  - intros Hnone. by rewrite (defaults_without_blocks _ _ Hnone).
Qed.

(** C10. A price block whose sale-price node has no nested span makes the
    price lookup raise instead of yielding 0.0; the extractor then
    returns no record and the controller skips the product. *)
Theorem sale_price_without_span_drops_product
    (product_url html : string) (w : World) (container sale : node) :
  responses w (length (requests w)) product_url = Some html ->
  html <> "" ->
  Soup.find "div" (Soup.class_ "product-collection__price") (BeautifulSoup html)
    = Some container ->
  Soup.find "span" (Soup.class_ "price--sale") container = Some sale ->
  Soup.find_all "span" Soup.any sale = [] ->
  Extractor.price (BeautifulSoup html) = Raise IndexError /\
  parse_product_details product_url w = (None, Spec.asked product_url w) /\
  (forall base_shop_url item href all_products_data,
     product_link item = Some href ->
     absolute base_shop_url href = Ok product_url ->
     is_detail_url product_url = true ->
     visit_item base_shop_url item (all_products_data, w)
       = Ok (all_products_data, Spec.asked product_url w)).
Proof.
  intros Hfetch Hne%truthy_nonempty Hcontainer Hsale Hspans.
  assert (Hprice : Extractor.price (BeautifulSoup html) = Raise IndexError).
  { unfold Extractor.price. by rewrite Hcontainer, Hsale, Hspans. }
  assert (Hnone : parse_product_details product_url w
                  = (None, Spec.asked product_url w)).
  { rewrite parse_product_details_unfold, Hfetch, Hne.
    destruct (Extractor.try_body _ _) as [d|e] eqn:Hbody; [| done].
    apply try_body_ok in Hbody as (? & ? & _ & Hp & _). congruence. }
  split; [done |]. split; [done |].
  intros base_shop_url item href all_products_data Hlink Habs Hdetail.
  unfold Crawler.visit_item. rewrite Hlink, Habs.
  unfold mbind, result_bind. by rewrite Hdetail, Hnone.
Qed.

(** *** One card, and the cards of a page *)

Lemma visit_item_unfold base_shop_url item all_products_data w :
  visit_item base_shop_url item (all_products_data, w) =
  match product_link item with
  | Some href =>
      match absolute base_shop_url href with
      | Ok product_url =>
          if is_detail_url product_url
          then Ok (all_products_data
                     ++ option_list (parse_product_details product_url w).1,
                   Spec.asked product_url w)
          else Ok (all_products_data, w)
      | Raise e => Raise e
      end
  | None => Ok (all_products_data, w)
  end.
Proof.
  unfold Crawler.visit_item.
  destruct (product_link item) as [href|]; [| done].
  unfold mbind, result_bind.
  destruct (absolute base_shop_url href) as [product_url | e]; [| done].
  destruct (is_detail_url _); [| done].
  pose proof (parse_product_details_record product_url w) as Hrec.
  rewrite parse_product_details_unfold in *. cbn [fst] in Hrec |- *.
  destruct (match responses w _ _ with Some _ => _ | None => _ end) as [d|];
    [| by rewrite app_nil_r].
  by destruct (Hrec d eq_refl) as (_ & _ & ->).
Qed.



(** Every way a card can be left: untouched, or after one detail request. *)
Lemma visit_item_cases base_shop_url item all_products_data w st' :
  visit_item base_shop_url item (all_products_data, w) = Ok st' ->
  st' = (all_products_data, w) \/
  exists href product_url,
    product_link item = Some href /\
    absolute base_shop_url href = Ok product_url /\
    is_detail_url product_url = true /\
    st' = (all_products_data
             ++ option_list (parse_product_details product_url w).1,
           Spec.asked product_url w).
Proof.
  rewrite visit_item_unfold.
  destruct (product_link item) as [href|]; [| intros [= <-]; by left].
  destruct (absolute base_shop_url href) as [product_url | e] eqn:Habs; [| done].
  destruct (is_detail_url product_url) eqn:Hdetail; intros [= <-]; [| by left].
  right. by exists href, product_url.
Qed.

(** *** Invariants of a crawl *)

Section Invariant.

(** A property of worlds that requests keep, and a relation between the
    states of a crawl that holds across a listing request and across a
    detail request: it then holds across every crawl that returns. *)
Variable base_shop_url : string.
Variable P : World -> Prop.
Variable R : list (dict pyval) * World -> list (dict pyval) * World -> Prop.

Hypothesis P_asked : forall url w, P w -> P (Spec.asked url w).
Hypothesis R_refl : forall st, R st st.
Hypothesis R_trans : forall st1 st2 st3, R st1 st2 -> R st2 st3 -> R st1 st3.
Hypothesis R_listing :
  forall page_num all_products_data w,
    P w ->
    R (all_products_data, w)
      (all_products_data,
       Spec.asked (current_page_url base_shop_url page_num) w).
Hypothesis R_detail :
  forall product_url all_products_data w,
    P w -> is_detail_url product_url = true ->
    R (all_products_data, w)
      (all_products_data
         ++ option_list (parse_product_details product_url w).1,
       Spec.asked product_url w).

Lemma visit_item_keeps item st st' :
  P st.2 -> visit_item base_shop_url item st = Ok st' -> P st'.2 /\ R st st'.
Proof.
  destruct st as [all_products_data w]. intros HP Hvisit.
  apply visit_item_cases in Hvisit
    as [-> | (href & product_url & _ & _ & Hdetail & ->)].
  - by split.
  - split; [by apply P_asked | by apply R_detail].
Qed.

Lemma visit_items_keep items :
  forall st st',
    P st.2 -> visit_items base_shop_url items st = Ok st' ->
    P st'.2 /\ R st st'.
Proof.
  induction items as [|item items IH]; intros st st' HP.
  - intros [= <-]. by split.
  - cbn [Crawler.visit_items]. unfold mbind, result_bind.
    destruct (visit_item base_shop_url item st) as [st1 | e] eqn:Hitem; [| done].
    apply visit_item_keeps in Hitem as [HP1 HR1]; [| done].
    intros [HP' HR']%IH; [| done]. split; [done |]. by eapply R_trans.
Qed.

Lemma crawl_page_keeps page_num all_products_data w r all' w' :
  P w ->
  crawl_page base_shop_url page_num all_products_data w = Ok (r, all', w') ->
  P w' /\ R (all_products_data, w) (all', w').
Proof.
  intros HP. unfold Crawler.crawl_page, get_page_content. cbv zeta.
  set (current := current_page_url base_shop_url page_num).
  change {| responses := responses w; requests := requests w ++ [current] |}
    with (Spec.asked current w).
  pose proof (R_listing page_num all_products_data w HP) as Hask.
  pose proof (P_asked current w HP) as HPask. fold current in Hask.
  destruct (responses w _ current) as [html|];
    [| intros [= <- <- <-]; by split].
  destruct (PyStr.truthy html); [| intros [= <- <- <-]; by split].
  destruct (product_list_items (BeautifulSoup html)) as [|item items];
    [intros [= <- <- <-]; by split |].
  unfold mbind, result_bind.
  destruct (visit_items _ _ _) as [[all1 w1] | e] eqn:Hvisit; [| done].
  apply visit_items_keep in Hvisit as [HP1 HR1]; [| done].
  destruct (resolve_next _ _ _) as [[why |] | e]; [| | done];
    intros [= <- <- <-]; (split; [done | by eapply R_trans]).
Qed.

Lemma crawl_loop_keeps fuel :
  forall page_num all_products_data w why all' w',
    P w ->
    crawl_loop fuel base_shop_url page_num all_products_data w
      = Some (Ok (why, all', w')) ->
    P w' /\ R (all_products_data, w) (all', w').
Proof.
  induction fuel as [|fuel IH];
    intros page_num all_products_data w why all' w' HP; [done |].
  cbn [Crawler.crawl_loop].
  destruct (crawl_page _ _ _ _) as [[[[why1 | next] all1] w1] | e] eqn:Hpage;
    [| | done].
  - apply crawl_page_keeps in Hpage; [| done]. by intros [= <- <- <-].
  - apply crawl_page_keeps in Hpage as [HP1 HR1]; [| done].
    intros [HP' HR']%IH; [| done]. split; [done |]. by eapply R_trans.
Qed.

End Invariant.






Lemma visit_item_requests base_shop_url item st st' :
  visit_item base_shop_url item st = Ok st' ->
  length (requests st'.2) <= length (requests st.2) + 1.
Proof.
  destruct st as [all_products_data w].
  intros [-> | (href & product_url & _ & _ & _ & ->)]%visit_item_cases.
  - simpl. lia.
  - cbn [snd Spec.asked requests]. rewrite length_app. simpl. lia.
Qed.

Lemma visit_items_requests base_shop_url items :
  forall st st',
    visit_items base_shop_url items st = Ok st' ->
    length (requests st'.2) <= length (requests st.2) + length items.
Proof.
  induction items as [|item items IH]; intros st st'.
  - intros [= <-]. simpl. lia.
  - cbn [Crawler.visit_items length]. unfold mbind, result_bind.
    destruct (visit_item base_shop_url item st) as [st1 | e] eqn:Hitem; [| done].
    apply visit_item_requests in Hitem. intros Hrest%IH. lia.
Qed.

(** With links that resolve, the cards of a page are visited to the end. *)
Lemma visit_items_return base_shop_url items :
  Spec.links_resolve urljoin base_shop_url items ->
  forall st, exists st', visit_items base_shop_url items st = Ok st'.
Proof.
  unfold Spec.links_resolve.
  induction items as [|item items IH]; intros Hres st; [by exists st |].
  apply Forall_cons in Hres as [Hitem Hres].
  cbn [Crawler.visit_items]. unfold mbind, result_bind.
  destruct st as [all_products_data w]. rewrite visit_item_unfold.
  destruct (product_link item) as [href|]; [| by apply IH].
  specialize (Hitem href eq_refl).
  destruct (absolute base_shop_url href) as [product_url | e]; [| done].
  destruct (is_detail_url product_url); by apply IH.
Qed.

(** *** The pagination loop *)


Lemma final_page_resolves base_shop_url current soup :
  Spec.final_page urljoin base_shop_url current soup ->
  product_list_items soup = [] \/
  exists why, resolve_next base_shop_url current soup = Ok (Some why)
              /\ Crawler.done why = true.
Proof.
  intros [Hcards | Hnav Hdiv | region Hregion Hnext Hnext' | href Hhref Hsame].
  - by left.
  - right. exists Crawler.NoNextLink.
    unfold Crawler.resolve_next, Crawler.next_page_link_element.
    by rewrite Hnav, Hdiv.
  - right. exists Crawler.NoNextLink.
    unfold Crawler.resolve_next, Crawler.next_page_link_element.
    by rewrite Hregion, Hnext, Hnext'.
  - right. unfold Crawler.resolve_next. rewrite Hhref, Hsame.
    unfold mbind, result_bind. rewrite String.eqb_refl.
    destruct (PyStr.truthy href); eauto.
Qed.

(** C3 (amended). When a listing page is fetched with a body that is not
    empty and the links of its cards resolve, the loop ends in that very
    turn, normally, after at most one request for the page and one per
    card, in each of the three cases: the page has no product card; it has
    no pagination region or no next link in it; its next link resolves to
    the current page URL. *)
Theorem pagination_stops (fuel : nat) (base_shop_url html : string)
    (page_num : nat) (all_products_data : list (dict pyval)) (w : World) :
  let current := current_page_url base_shop_url page_num in
  let soup := BeautifulSoup html in
  responses w (length (requests w)) current = Some html ->
  html <> "" ->
  Spec.links_resolve urljoin base_shop_url (product_list_items soup) ->
  Spec.final_page urljoin base_shop_url current soup ->
  exists why all' w',
    crawl_loop (S fuel) base_shop_url page_num all_products_data w
      = Some (Ok (why, all', w')) /\
    Crawler.done why = true /\
    (product_list_items soup = [] ->
     why = Crawler.NoProducts /\ all' = all_products_data) /\
    length (requests w')
      <= length (requests w) + 1 + length (product_list_items soup).
Proof.
  intros current soup Hfetch Hne%truthy_nonempty Hlinks Hfinal.
  cbn [Crawler.crawl_loop]. unfold Crawler.crawl_page, get_page_content.
  cbv zeta. fold current. rewrite Hfetch, Hne. fold soup.
  change {| responses := responses w; requests := requests w ++ [current] |}
    with (Spec.asked current w).
  destruct (product_list_items soup) as [|item items] eqn:Hitems.
  - exists Crawler.NoProducts, all_products_data, (Spec.asked current w).
    split; [done |]. split; [done |]. split; [done |].
    cbn. rewrite length_app. simpl. lia.
  - apply final_page_resolves in Hfinal as [Hnil | (why & Hwhy & Hdone)];
      [congruence |].
    destruct (visit_items_return base_shop_url (item :: items) Hlinks
                (all_products_data, Spec.asked current w)) as [[all' w'] Hvisit].
    pose proof (visit_items_requests _ _ _ _ Hvisit) as Hbound.
    rewrite Hvisit, Hwhy. unfold mbind, result_bind. cbn [fst snd].
    exists why, all', w'. split; [done |]. split; [done |]. split; [done |].
    cbn [fst snd Spec.asked requests] in Hbound.
    rewrite length_app in Hbound. simpl in *. lia.
Qed.

(** *** No deduplication *)






End CrawlerFacts.

(** ** The theorems at the fixture pages *)

Section AtFixtures.
Import Fixture.

#[local] Abbreviation parse_product_details := (Crawler.parse_product_details parser).
#[local] Abbreviation absolute := (Crawler.absolute join_origin).
#[local] Abbreviation visit_item := (Crawler.visit_item parser join_origin).
#[local] Abbreviation visit_items := (Crawler.visit_items parser join_origin).
#[local] Abbreviation crawl_loop := (Crawler.crawl_loop parser join_origin).
#[local] Abbreviation crawl_shop_pages := (Crawler.crawl_shop_pages parser join_origin).

#[local] Ltac run := vm_compute; reflexivity.

Lemma extraction_record_or_nothing_witness :
  responses shop (length (requests shop)) rice_url = Some "rice" /\
  "rice" <> "" /\
  (exists name p,
     parse_product_details rice_url shop
       = (Some (Spec.record_of rice_url name p (parser "rice")),
          Spec.asked rice_url shop)) /\
  parse_product_details about_url about_shop
    = (Some (Spec.default_record about_url), Spec.asked about_url about_shop).
Proof.
  assert (H1 : responses shop (length (requests shop)) rice_url = Some "rice")
    by run.
  assert (H2 : "rice" <> "") by discriminate.
  assert (Hok : is_ok (Extractor.try_body rice_url (parser "rice")) = true) by run.
  split; [exact H1 |]. split; [exact H2 |]. split.
  - destruct (extraction_record_or_nothing parser rice_url "rice" shop H1 H2)
      as ([(name & p & _ & _ & Hrun & _) | (e & He & _)] & _ & _).
    + exists name, p. exact Hrun.
    + rewrite He in Hok. discriminate Hok.
  - destruct (extraction_record_or_nothing parser about_url "bare" about_shop)
      as (_ & _ & Hdefault); [run | discriminate |].
    apply Hdefault. unfold Spec.no_known_block. repeat constructor.
Defined.

(** C1 as stated fails: the tea page is fetched, its title block has no
    heading, and the extractor returns no record for it. *)
Lemma title_without_heading_yields_no_record :
  responses shop (length (requests shop)) tea_url = Some "tea" /\
  Extractor.try_body tea_url (parser "tea") = Raise AttributeError /\
  (parse_product_details tea_url shop).1 = None.
Proof. split; [| split]; run. Qed.

Lemma sale_price_without_span_drops_product_witness :
  responses shop (length (requests shop)) ghee_url = Some "ghee" /\
  "ghee" <> "" /\
  Soup.find "div" (Soup.class_ "product-collection__price") (parser "ghee")
    = Some flat_price_block /\
  Soup.find "span" (Soup.class_ "price--sale") flat_price_block
    = Some flat_sale_node /\
  Soup.find_all "span" Soup.any flat_sale_node = [] /\
  Extractor.price (parser "ghee") = Raise IndexError /\
  parse_product_details ghee_url shop = (None, Spec.asked ghee_url shop) /\
  visit_item base (card "/products/ghee") ([], shop)
    = Ok ([], Spec.asked ghee_url shop).
Proof.
  assert (H1 : responses shop (length (requests shop)) ghee_url = Some "ghee")
    by run.
  assert (H2 : "ghee" <> "") by discriminate.
  assert (H3 : Soup.find "div" (Soup.class_ "product-collection__price")
                 (parser "ghee") = Some flat_price_block) by run.
  assert (H4 : Soup.find "span" (Soup.class_ "price--sale") flat_price_block
               = Some flat_sale_node) by run.
  assert (H5 : Soup.find_all "span" Soup.any flat_sale_node = []) by run.
  destruct (sale_price_without_span_drops_product parser join_origin
              ghee_url "ghee" shop flat_price_block flat_sale_node
              H1 H2 H3 H4 H5) as (Hprice & Hnone & Hskip).
  do 5 (split; [assumption |]). split; [exact Hprice |]. split; [exact Hnone |].
  apply (Hskip base (card "/products/ghee") "/products/ghee" []); run.
Defined.




#[local] Ltac links :=
  repeat (apply Forall_cons; split;
          [let href := fresh in let H := fresh in
           intros href H; vm_compute in H; injection H as <-; run |]);
  apply Forall_nil_2.

Lemma pagination_stops_witness :
  (exists why all' w',
     crawl_loop 1 base 1 [] empty_shop = Some (Ok (why, all', w'))
     /\ Crawler.done why = true) /\
  (exists why all' w',
     crawl_loop 1 base 1 [] last_page_shop = Some (Ok (why, all', w'))
     /\ Crawler.done why = true) /\
  (exists why all' w',
     crawl_loop 1 base 1 [] self_shop = Some (Ok (why, all', w'))
     /\ Crawler.done why = true).
Proof.
  split; [| split].
  - destruct (pagination_stops parser join_origin 0 base "E" 1 [] empty_shop)
      as (why & all' & w' & Hrun & Hdone & _);
      [run | discriminate | apply Forall_nil_2 | apply Spec.no_cards; run |].
    exists why, all', w'. split; [exact Hrun | exact Hdone].
  - destruct (pagination_stops parser join_origin 0 base "L2" 1 [] last_page_shop)
      as (why & all' & w' & Hrun & Hdone & _);
      [run | discriminate | links | apply Spec.no_region; run |].
    exists why, all', w'. split; [exact Hrun | exact Hdone].
  - destruct (pagination_stops parser join_origin 0 base "S" 1 [] self_shop)
      as (why & all' & w' & Hrun & Hdone & _);
      [run | discriminate | links
      | apply (Spec.next_is_current _ _ _ _ base); run |].
    exists why, all', w'. split; [exact Hrun | exact Hdone].
Defined.

(** C3 as stated fails: a listing page that comes back with an empty body
    has no product card, yet the loop does not end normally on it but as
    on a failed fetch; and on a page without pagination region whose card
    links to [//[/products/x], [urljoin] raises and the loop does not end
    normally either. *)
Lemma empty_listing_page_ends_as_a_failed_fetch :
  (responses Endless.silent_shop (length (requests Endless.silent_shop)) base
     = Some "" /\
   Crawler.product_list_items (parser "") = [] /\
   crawl_loop 1 base 1 [] Endless.silent_shop
     = Some (Ok (Crawler.FetchFailed, [], Spec.asked base Endless.silent_shop)) /\
   Crawler.done Crawler.FetchFailed = false) /\
  (Crawler.next_page_link_element Endless.bracket_listing = None /\
   Crawler.crawl_loop Endless.bracket_parser join_origin 1 base 1 []
     Endless.shop = Some (Raise ValueError)).
Proof. repeat split; run. Qed.





End AtFixtures.

(** * More of the code *)

(** ** Texts: cleaning, trimming, letter case *)

Lemma filter_app p a b :
  PyStr.filter p (a +:+ b) = PyStr.filter p a +:+ PyStr.filter p b.
Proof.
  induction a as [|c a IH]; [done |].
  change (String c a +:+ b) with (String c (a +:+ b)).
  cbn [PyStr.filter]. destruct (p c); [| done].
  change (String c (PyStr.filter p a) +:+ PyStr.filter p b)
    with (String c (PyStr.filter p a +:+ PyStr.filter p b)).
  by rewrite IH.
Qed.

Lemma filter_none p s :
  PyStr.all (fun c => negb (p c)) s = true -> PyStr.filter p s = "".
Proof.
  induction s as [|c s IH]; [done |]. cbn [PyStr.all PyStr.filter].
  intros [Hc Hs]%andb_true_iff. apply negb_true_iff in Hc. rewrite Hc. auto.
Qed.

(** X1. Characters that are neither digits nor decimal points (currency
    signs, a minus sign, separators, blanks) have no influence on the
    price, wherever they stand in the text. *)
Theorem price_ignores_other_characters (a junk b : string) :
  PyStr.all (fun c => negb (Spec.digit_or_dot c)) junk = true ->
  Extractor.price_of_text (a +:+ junk +:+ b) = Extractor.price_of_text (a +:+ b).
Proof.
  intros Hjunk. unfold Extractor.price_of_text, Extractor.clean_price.
  fold Spec.digit_or_dot.
  by rewrite !filter_app, (filter_none _ _ Hjunk).
Qed.

Lemma price_ignores_other_characters_witness :
  PyStr.all (fun c => negb (Spec.digit_or_dot c)) ",-" = true /\
  Extractor.price_of_text ("$1" +:+ ",-" +:+ "299.00")
    = Extractor.price_of_text ("$1" +:+ "299.00").
Proof.
  split; [reflexivity |].
  apply (price_ignores_other_characters "$1" ",-" "299.00"). reflexivity.
Defined.

Lemma price_of_text_nonneg t q :
  Extractor.price_of_text t = Ok q -> (0 <= q)%Q.
Proof.
  unfold Extractor.price_of_text.
  destruct (PyStr.truthy _); [apply float_nonneg |].
  by intros [= <-].
Qed.

Lemma price_resolved_nonneg (soup : node) (q : Q) :
  Extractor.price soup = Ok q -> (0 <= q)%Q.
Proof.
  unfold Extractor.price.
  repeat case_match; try done; try apply price_of_text_nonneg;
    by intros [= <-].
Qed.

(** X2. Whatever the document, a price the extractor resolves is never
    negative: a minus sign is cleaned away before the parse. *)
Theorem price_never_negative (soup : node) (q : Q) :
  (Extractor.price soup = Ok q -> (0 <= q)%Q) /\
  forall amount,
    Extractor.price_of_text ("-" +:+ amount) = Extractor.price_of_text amount.
Proof.
  split; [apply price_resolved_nonneg |].
  intros amount. unfold Extractor.price_of_text, Extractor.clean_price.
  by rewrite filter_app.
Qed.

Lemma price_never_negative_witness :
  Extractor.price Fixture.rice = Ok 9.99%Q /\ (0 <= 9.99)%Q.
Proof.
  assert (H : Extractor.price Fixture.rice = Ok 9.99%Q) by reflexivity.
  split; [exact H |].
  destruct (price_never_negative Fixture.rice 9.99%Q) as [Hprice _].
  exact (Hprice H).
Defined.

Lemma lstrip_first s c :
  Shape.first_char (PyStr.lstrip s) = Some c -> PyStr.is_space c = false.
Proof.
  induction s as [|a s IH]; [done |]. cbn [PyStr.lstrip].
  destruct (PyStr.is_space a) eqn:Ha; [done |].
  by intros [= <-].
Qed.

Lemma rstrip_first s c :
  Shape.first_char (PyStr.rstrip s) = Some c -> Shape.first_char s = Some c.
Proof.
  destruct s as [|a s]; [done |]. cbn [PyStr.rstrip].
  destruct (PyStr.rstrip s); [| done].
  by destruct (PyStr.is_space a).
Qed.

Lemma rstrip_last s c :
  Shape.last_char (PyStr.rstrip s) = Some c -> PyStr.is_space c = false.
Proof.
  induction s as [|a s IH]; [done |]. cbn [PyStr.rstrip].
  destruct (PyStr.rstrip s) as [|b r].
  - destruct (PyStr.is_space a) eqn:Ha; [done |]. by intros [= <-].
  - exact IH.
Qed.

Lemma strip_trimmed s : Shape.trimmed (PyStr.strip s).
Proof.
  intros c [Hfirst | Hlast].
  - by apply rstrip_first, lstrip_first in Hfirst.
  - by apply rstrip_last in Hlast.
Qed.

(** X3. The product name and the category of a record never begin or end
    with white space. *)
Theorem name_and_category_are_trimmed (soup : node) :
  (forall name, Extractor.product_name soup = Ok name -> Shape.trimmed name) /\
  Shape.trimmed (Extractor.category soup).
Proof.
  assert (Hna : Shape.trimmed "N/A").
  { intros c [[= <-] | [= <-]]; reflexivity. }
  unfold Extractor.product_name, Extractor.category. split.
  - intros name. repeat case_match; try done; intros [= <-];
      [apply strip_trimmed | done | done].
  - repeat case_match; try done; apply strip_trimmed.
Qed.

Lemma name_and_category_are_trimmed_witness :
  Extractor.product_name Fixture.rice = Ok "Basmati Rice" /\
  Shape.trimmed "Basmati Rice".
Proof.
  assert (H : Extractor.product_name Fixture.rice = Ok "Basmati Rice")
    by reflexivity.
  split; [exact H |].
  destruct (name_and_category_are_trimmed Fixture.rice) as [Hname _].
  exact (Hname "Basmati Rice" H).
Defined.

Lemma lower_app a b : PyStr.lower (a +:+ b) = PyStr.lower a +:+ PyStr.lower b.
Proof.
  induction a as [|c a IH]; [done |].
  change (String c a +:+ b) with (String c (a +:+ b)).
  cbn [PyStr.lower]. by rewrite IH.
Qed.

Lemma lower_split t x y :
  PyStr.lower t = x +:+ y ->
  exists a b, t = a +:+ b /\ PyStr.lower a = x /\ PyStr.lower b = y.
Proof.
  revert t. induction x as [|c x IH]; intros t Ht.
  - by exists "", t.
  - destruct t as [|d t]; [done |].
    change (String c x +:+ y) with (String c (x +:+ y)) in Ht.
    cbn [PyStr.lower] in Ht. injection Ht as Hc Ht.
    destruct (IH t Ht) as (a & b & -> & <- & <-).
    exists (String d a), b. by rewrite <- Hc.
Qed.

(** X4. When the availability text node is there, the availability is
    true exactly when its text holds the words "in stock" in any mix of
    upper and lower case, anywhere in the text. *)
Theorem availability_ignores_case (soup span : node) :
  Spec.availability_node soup = Some span ->
  (Extractor.availability soup = true <->
   exists a u b, Soup.text span = a +:+ u +:+ b /\ PyStr.lower u = "in stock").
Proof.
  unfold Spec.availability_node, Extractor.availability.
  destruct (Soup.find "div" _ soup) as [d|]; [| done].
  intros ->. rewrite contains_spec. split.
  - intros (x & y & Hxy).
    apply lower_split in Hxy as (a & r & -> & <- & Hr).
    apply lower_split in Hr as (u & b & -> & Hu & <-).
    by exists a, u, b.
  - intros (a & u & b & -> & Hu).
    exists (PyStr.lower a), (PyStr.lower b). by rewrite !lower_app, Hu.
Qed.

Lemma availability_ignores_case_witness :
  Spec.availability_node Fixture.rice
    = Some (Fixture.el "span" [] [NavigableString "5 In Stock"]) /\
  Extractor.availability Fixture.rice = true.
Proof.
  assert (H : Spec.availability_node Fixture.rice
              = Some (Fixture.el "span" [] [NavigableString "5 In Stock"]))
    by reflexivity.
  split; [exact H |].
  apply (availability_ignores_case Fixture.rice _ H).
  exists "5 ", "In Stock", "". split; reflexivity.
Defined.

(** ** The width placeholder *)

Lemma contains_skips_prefix (o : ascii) (old' prefix rest : string) :
  PyStr.all (fun c => negb (Ascii.eqb o c)) prefix = true ->
  PyStr.contains (String o old') (prefix +:+ rest)
    = PyStr.contains (String o old') rest.
Proof.
  induction prefix as [|c prefix IH]; [done |].
  cbn [PyStr.all]. intros [Hc Hp]%andb_true_iff. apply negb_true_iff in Hc.
  change (String c prefix +:+ rest) with (String c (prefix +:+ rest)).
  cbn [PyStr.contains PyStr.startswith]. rewrite Hc. cbn [andb orb]. auto.
Qed.

(** A text that the replaced text begins with was already there, as long
    as it shares no character with the head of the replacement. *)
Lemma startswith_before_replace (old new' p s : string) (n : ascii) :
  PyStr.all (fun c => negb (Ascii.eqb c n)) p = true ->
  PyStr.startswith p (PyStr.replace_from 0 old (String n new') s) = true ->
  PyStr.startswith p s = true.
Proof.
  revert s. induction p as [|a p IH]; intros s Hp; [done |].
  cbn [PyStr.all] in Hp. apply andb_true_iff in Hp as [Ha Hp].
  apply negb_true_iff in Ha.
  destruct s as [|c s]; [done |]. cbn [PyStr.replace_from].
  destruct (PyStr.startswith old (String c s)).
  - change (String n new' +:+ ?x) with (String n (new' +:+ x)).
    cbn [PyStr.startswith]. by rewrite Ha.
  - cbn [PyStr.startswith]. intros [-> Hrest]%andb_true_iff.
    apply andb_true_iff. split; [done |]. by apply IH.
Qed.

Lemma replace_leaves_none (o n : ascii) (old' new' : string) :
  PyStr.all (fun c => negb (Ascii.eqb o c)) (String n new') = true ->
  PyStr.all (fun c => negb (Ascii.eqb c n)) old' = true ->
  forall s skip,
    PyStr.contains (String o old')
      (PyStr.replace_from skip (String o old') (String n new') s) = false.
Proof.
  intros Hnew Hold. induction s as [|c s IH]; intros skip; [done |].
  cbn [PyStr.replace_from]. destruct skip as [|skip]; [| apply IH].
  destruct (PyStr.startswith (String o old') (String c s)) eqn:Hstart.
  - rewrite contains_skips_prefix by done. apply IH.
  - cbn [PyStr.contains]. rewrite IH, orb_false_r.
    apply not_true_is_false. intros Hnow. cbn [PyStr.startswith] in Hnow, Hstart.
    apply andb_true_iff in Hnow as [Hoc Hrest].
    apply startswith_before_replace in Hrest; [| done].
    by rewrite Hoc, Hrest in Hstart.
Qed.

(** X5. The image URL of a record never holds the width placeholder
    [{width}x]: every occurrence in the source is replaced and the
    replacement creates none. *)
Theorem image_url_has_no_placeholder (soup : node) :
  PyStr.contains "{width}x" (Extractor.image_url soup) = false.
Proof.
  unfold Extractor.image_url.
  destruct (Extractor.img_tag soup) as [img|]; [| reflexivity].
  destruct (PyDict.get "data-master" _) as [master|]; [| reflexivity].
  cbv zeta. unfold PyStr.replace.
  pose proof (replace_leaves_none "{" "1" "width}x" "000x" eq_refl eq_refl master 0)
    as Hnone.
  destruct (PyStr.startswith "//" _); [| exact Hnone].
  by rewrite (contains_skips_prefix "{" "width}x" "https:").
Qed.

(** X6. In the rendering scraper an image URL, when there is one, begins
    with [http] and holds no width placeholder; there is none exactly
    when the [data-master] attribute is missing or empty. *)
Theorem rendered_image_url_shape (data_master_url : option string) :
  (Rendered.image_url data_master_url = None <->
   data_master_url = None \/ data_master_url = Some "") /\
  forall url,
    Rendered.image_url data_master_url = Some url ->
    PyStr.startswith "http" url = true /\
    PyStr.contains "{width}x" url = false.
Proof.
  unfold Rendered.image_url.
  destruct data_master_url as [master|]; [| split; [by split; [left |] | done]].
  destruct (PyStr.truthy master) eqn:Hm.
  - cbv zeta. unfold PyStr.replace.
    pose proof (replace_leaves_none "{" "1" "width}x" "024x" eq_refl eq_refl master 0)
      as Hnone.
    apply truthy_nonempty in Hm. split.
    + split.
      * by destruct (negb _).
      * intros [[=] | [= ->]]. done.
    + intros url.
      destruct (PyStr.startswith "http" _) eqn:Hhttp; cbn [negb];
        intros [= <-]; [done |].
      split; [reflexivity |].
      by rewrite (contains_skips_prefix "{" "width}x" "https:").
  - apply truthy_empty in Hm as ->. split; [| done].
    split; [by right | done].
Qed.

Lemma rendered_image_url_shape_witness :
  Rendered.image_url (Some "/files/a_{width}x.jpg")
    = Some "https:/files/a_1024x.jpg" /\
  PyStr.startswith "http" "https:/files/a_1024x.jpg" = true /\
  PyStr.contains "{width}x" "https:/files/a_1024x.jpg" = false.
Proof.
  assert (H : Rendered.image_url (Some "/files/a_{width}x.jpg")
              = Some "https:/files/a_1024x.jpg") by reflexivity.
  split; [exact H |].
  destruct (rendered_image_url_shape (Some "/files/a_{width}x.jpg")) as [_ Hshape].
  exact (Hshape "https:/files/a_1024x.jpg" H).
Defined.

(** ** Class criteria on tokenized classes *)

Lemma no_space_cons a c :
  PyStr.contains " " (String a c) = false ->
  a <> " "%char /\ PyStr.contains " " c = false.
Proof.
  cbn [PyStr.contains PyStr.startswith]. rewrite andb_true_r.
  intros [Ha Hc]%orb_false_iff. split; [| done].
  intros ->. by rewrite Ascii.eqb_refl in Ha.
Qed.

Lemma space_found a b : PyStr.contains " " (a +:+ " " +:+ b) = true.
Proof. apply contains_spec. by exists a, b. Qed.

Lemma split_token c t r1 r2 :
  PyStr.contains " " c = false -> PyStr.contains " " t = false ->
  c +:+ " " +:+ r1 = t +:+ " " +:+ r2 -> c = t /\ r1 = r2.
Proof.
  revert t. induction c as [|a c IH]; intros t Hc Ht Heq.
  - destruct t as [|b t]; [by injection Heq |].
    apply no_space_cons in Ht as [Hb _]. by injection Heq as <- _.
  - apply no_space_cons in Hc as [Ha Hc].
    destruct t as [|b t]; [by injection Heq as -> _ |].
    apply no_space_cons in Ht as [_ Ht].
    injection Heq as -> Heq. destruct (IH t Hc Ht Heq) as [-> ->]. done.
Qed.

Lemma join_cons_cons c d l :
  PyStr.join " " (c :: d :: l) = c +:+ " " +:+ PyStr.join " " (d :: l).
Proof. reflexivity. Qed.

Lemma join_tokens_inj l1 :
  forall l2, Forall Shape.token l1 -> Forall Shape.token l2 ->
             PyStr.join " " l1 = PyStr.join " " l2 -> l1 = l2.
Proof.
  induction l1 as [|c1 l1 IH]; intros l2 H1 H2 Heq.
  - destruct l2 as [|c2 [|d2 l2]]; [done | |].
    + apply Forall_cons in H2 as [[Hne _] _]. by destruct Hne.
    + apply Forall_cons in H2 as [[Hne _] _]. rewrite join_cons_cons in Heq.
      destruct c2; [by destruct Hne | discriminate Heq].
  - apply Forall_cons in H1 as [[Hne1 Hs1] H1].
    destruct l2 as [|c2 l2].
    + destruct l1; [by destruct Hne1 |]. rewrite join_cons_cons in Heq.
      destruct c1; [by destruct Hne1 | discriminate Heq].
    + apply Forall_cons in H2 as [[Hne2 Hs2] H2].
      destruct l1 as [|d1 l1], l2 as [|d2 l2].
      * cbn in Heq. by subst.
      * change (c1 = c2 +:+ " " +:+ PyStr.join " " (d2 :: l2)) in Heq.
        subst c1. by rewrite space_found in Hs1.
      * change (c1 +:+ " " +:+ PyStr.join " " (d1 :: l1) = c2) in Heq.
        subst c2. by rewrite space_found in Hs2.
      * rewrite !join_cons_cons in Heq.
        apply split_token in Heq as [-> Heq]; [| done | done].
        f_equal. by apply IH.
Qed.

Lemma existsb_eqb_In c classes :
  existsb (String.eqb c) classes = true <-> In c classes.
Proof.
  rewrite existsb_exists. split.
  - by intros (x & Hx & ->%String.eqb_eq).
  - intros Hc. exists c. by rewrite String.eqb_refl.
Qed.

(** A criterion of one token asks for that token among the classes; a
    criterion of several tokens asks for exactly these classes, in this
    order. *)
Lemma class_matches_one t classes :
  Forall Shape.token classes -> Shape.token t ->
  Soup.class_matches t classes = true <-> In t classes.
Proof.
  intros Hcl Ht. unfold Soup.class_matches.
  rewrite orb_true_iff, existsb_eqb_In, String.eqb_eq. split; [| by left].
  intros [Hin | Hjoin]; [done |].
  apply (join_tokens_inj classes [t]) in Hjoin as ->; [by left | done |].
  by apply Forall_singleton.
Qed.

Lemma class_matches_several t1 t2 target classes :
  Forall Shape.token classes -> Forall Shape.token (t1 :: t2 :: target) ->
  Soup.class_matches (PyStr.join " " (t1 :: t2 :: target)) classes = true
  <-> classes = t1 :: t2 :: target.
Proof.
  intros Hcl Ht. unfold Soup.class_matches.
  rewrite orb_true_iff, existsb_eqb_In, String.eqb_eq. split.
  - intros [Hin | Hjoin]; [| by apply join_tokens_inj].
    rewrite Forall_forall in Hcl. apply list_elem_of_In, Hcl in Hin as [_ Hin].
    by rewrite join_cons_cons, space_found in Hin.
  - intros ->. by right.
Qed.

Lemma tokenized_classes n m :
  Shape.tokenized n -> In m (Soup.descendants n) ->
  Forall Shape.token (Shape.classes_of m).
Proof.
  unfold Shape.tokenized. rewrite Forall_forall.
  intros Hall Hm. by apply Hall, list_elem_of_In.
Qed.

(** X7. In a parsed page, whose class values are tokens, the product cards
    are exactly the [div]s whose class attribute is the four column
    classes in the order of the selector and nothing else: a card with a
    further class, or with the classes in another order, is not seen. *)
Theorem product_cards_have_exactly_the_column_classes (soup n : node) :
  Shape.tokenized soup ->
  (In n (Crawler.product_list_items soup) <->
   In n (Soup.descendants soup) /\
   Shape.name_of n = Some "div" /\
   Shape.classes_of n = ["col-sm-6"; "col-md-4"; "col-lg-4"; "col-xl-4"]).
Proof.
  intros Htok. unfold Crawler.product_list_items, Soup.find_all.
  rewrite filter_In.
  assert (Htarget : Forall Shape.token
                      ["col-sm-6"; "col-md-4"; "col-lg-4"; "col-xl-4"]).
  { repeat constructor; discriminate. }
  split.
  - intros [Hin Hm]. split; [done |].
    pose proof (tokenized_classes soup n Htok Hin) as Hcl.
    destruct n as [s | name classes attrs cs]; [done |].
    cbn [Soup.matches] in Hm. apply andb_true_iff in Hm as [->%String.eqb_eq Hm].
    split; [done |]. cbn [Shape.classes_of] in *.
    by apply (class_matches_several "col-sm-6" "col-md-4" ["col-lg-4"; "col-xl-4"]).
  - intros (Hin & Hname & Hclasses). split; [done |].
    destruct n as [s | name classes attrs cs]; [done |].
    cbn in Hname, Hclasses. injection Hname as ->. subst classes. reflexivity.
Qed.

Lemma product_cards_have_exactly_the_column_classes_witness :
  Shape.tokenized Fixture.listing2 /\
  In (Fixture.card "/products/red-lentils")
     (Crawler.product_list_items Fixture.listing2).
Proof.
  assert (H : Shape.tokenized Fixture.listing2).
  { repeat constructor; discriminate. }
  split; [exact H |].
  apply (product_cards_have_exactly_the_column_classes Fixture.listing2 _ H).
  split; [| split]; [| reflexivity | reflexivity].
  cbn. auto.
Defined.

(** X8. In a parsed page the second lookup of the next link, by the class
    value [next page-numbers], never finds a link that the first lookup,
    by the class [next], has missed. *)
Theorem second_next_lookup_finds_nothing_new (region : node) :
  Shape.tokenized region ->
  Soup.find "a" (Soup.class_ "next") region = None ->
  Soup.find "a" (Soup.class_ "next page-numbers") region = None.
Proof.
  intros Htok. unfold Soup.find, Soup.find_all. rewrite !head_filter_none.
  intros Hfirst n Hin. specialize (Hfirst n Hin).
  pose proof (tokenized_classes region n Htok Hin) as Hcl.
  destruct n as [s | name classes attrs cs]; [done |].
  cbn [Soup.matches Shape.classes_of] in *.
  destruct (String.eqb name "a"); [| done]. cbn [andb] in *.
  apply not_true_is_false. intros Hsecond.
  apply (class_matches_several "next" "page-numbers" []) in Hsecond;
    [| done | repeat constructor; discriminate].
  subst classes. discriminate Hfirst.
Qed.

Lemma second_next_lookup_finds_nothing_new_witness :
  Shape.tokenized Fixture.listing2 /\
  Soup.find "a" (Soup.class_ "next") Fixture.listing2 = None /\
  Soup.find "a" (Soup.class_ "next page-numbers") Fixture.listing2 = None.
Proof.
  assert (H1 : Shape.tokenized Fixture.listing2).
  { repeat constructor; discriminate. }
  assert (H2 : Soup.find "a" (Soup.class_ "next") Fixture.listing2 = None)
    by reflexivity.
  split; [exact H1 |]. split; [exact H2 |].
  exact (second_next_lookup_finds_nothing_new Fixture.listing2 H1 H2).
Defined.

(** ** More on the crawl *)

Section CrawlerMore.

Variable BeautifulSoup : string -> node.
Variable urljoin : string -> string -> result string.

#[local] Abbreviation parse_product_details :=
  (Crawler.parse_product_details BeautifulSoup).
#[local] Abbreviation absolute := (Crawler.absolute urljoin).
#[local] Abbreviation visit_item := (Crawler.visit_item BeautifulSoup urljoin).
#[local] Abbreviation visit_items := (Crawler.visit_items BeautifulSoup urljoin).
#[local] Abbreviation resolve_next := (Crawler.resolve_next urljoin).
#[local] Abbreviation crawl_page := (Crawler.crawl_page BeautifulSoup urljoin).
#[local] Abbreviation crawl_loop := (Crawler.crawl_loop BeautifulSoup urljoin).
#[local] Abbreviation crawl_shop_pages :=
  (Crawler.crawl_shop_pages BeautifulSoup urljoin).
#[local] Abbreviation product_link := Crawler.product_link.
#[local] Abbreviation is_detail_url := Crawler.is_detail_url.
#[local] Abbreviation current_page_url := Crawler.current_page_url.
#[local] Abbreviation product_list_items := Crawler.product_list_items.
#[local] Abbreviation next_page_link_element := Crawler.next_page_link_element.

(** X9. An empty response body counts as a failed fetch: a detail page
    with an empty body is skipped without extraction, and a listing page
    with an empty body stops the crawl with the records held so far. *)
Theorem empty_body_is_a_failed_fetch (url : string) (w : World) :
  responses w (length (requests w)) url = Some "" ->
  parse_product_details url w = (None, Spec.asked url w) /\
  (forall fuel base_shop_url page_num all_products_data,
     url = current_page_url base_shop_url page_num ->
     crawl_loop (S fuel) base_shop_url page_num all_products_data w
       = Some (Ok (Crawler.FetchFailed, all_products_data, Spec.asked url w))).
Proof.
  intros Hempty. split.
  - by rewrite parse_product_details_unfold, Hempty.
  - intros fuel base_shop_url page_num all_products_data ->.
    cbn [Crawler.crawl_loop]. unfold Crawler.crawl_page, get_page_content.
    cbv zeta. by rewrite Hempty.
Qed.

(** The fuel is only a bound: more of it never changes the outcome of a
    crawl that has one. *)
Lemma crawl_loop_fuel_monotone (fuel extra : nat) (base_shop_url : string) :
  forall page_num all_products_data w r,
    crawl_loop fuel base_shop_url page_num all_products_data w = Some r ->
    crawl_loop (fuel + extra) base_shop_url page_num all_products_data w
      = Some r.
Proof.
  induction fuel as [|fuel IH]; intros page_num all_products_data w r; [done |].
  cbn [Crawler.crawl_loop Nat.add].
  destruct (crawl_page _ _ _ _) as [[[[why | next] all1] w1] | e]; [done | | done].
  apply IH.
Qed.

Lemma grows_refl base_shop_url st : Shape.grows base_shop_url st st.
Proof. exists [], []. by rewrite !app_nil_r. Qed.

Lemma grows_trans base_shop_url st1 st2 st3 :
  Shape.grows base_shop_url st1 st2 -> Shape.grows base_shop_url st2 st3 ->
  Shape.grows base_shop_url st1 st3.
Proof.
  intros (n1 & r1 & Hq1 & Hp1 & Ha1 & Hu1 & Hc1)
         (n2 & r2 & Hq2 & Hp2 & Ha2 & Hu2 & Hc2).
  exists (n1 ++ n2), (r1 ++ r2).
  rewrite Hq2, Hq1, Hp2, Hp1, Ha2, Ha1, !app_assoc.
  split; [done |]. split; [done |]. split; [done |].
  split; by apply Forall_app.
Qed.

Lemma parse_product_details_complete product_url w d :
  (parse_product_details product_url w).1 = Some d -> Shape.complete d.
Proof.
  rewrite parse_product_details_unfold. cbn [fst].
  destruct (responses w _ _) as [html|]; [| done].
  destruct (PyStr.truthy html); [| done].
  destruct (Extractor.try_body _ _) as [d'|] eqn:Hbody; [| done].
  intros [= ->]. apply try_body_ok in Hbody as (name & p & _ & Hp & ->).
  split; [reflexivity |]. split; [reflexivity |].
  exists p. split; [reflexivity |]. by apply price_resolved_nonneg in Hp.
Qed.

Lemma asked_grows base_shop_url page_num all_products_data w :
  Shape.grows base_shop_url (all_products_data, w)
    (all_products_data, Spec.asked (current_page_url base_shop_url page_num) w).
Proof.
  exists [current_page_url base_shop_url page_num], []. rewrite app_nil_r.
  split; [done |]. split; [done |]. split; [done |].
  split; [| constructor]. apply Forall_singleton. left. by exists page_num.
Qed.

Lemma detail_grows base_shop_url product_url all_products_data w :
  is_detail_url product_url = true ->
  Shape.grows base_shop_url (all_products_data, w)
    (all_products_data ++ option_list (parse_product_details product_url w).1,
     Spec.asked product_url w).
Proof.
  intros Hdetail.
  exists [product_url], (option_list (parse_product_details product_url w).1).
  split; [done |]. split; [done |]. split; [done |]. split.
  - apply Forall_singleton. by right.
  - destruct (parse_product_details product_url w).1 as [d|] eqn:Hd;
      [| constructor].
    apply Forall_singleton. by apply parse_product_details_complete in Hd.
Qed.

Lemma crawl_loop_grows fuel base_shop_url :
  forall page_num all_products_data w why all' w',
    crawl_loop fuel base_shop_url page_num all_products_data w
      = Some (Ok (why, all', w')) ->
    Shape.grows base_shop_url (all_products_data, w) (all', w').
Proof.
  intros page_num all_products_data w why all' w' Hrun.
  apply (crawl_loop_keeps BeautifulSoup urljoin base_shop_url
           (fun _ => True) (Shape.grows base_shop_url))
    in Hrun as [_ Hrun]; try done.
  - apply grows_refl.
  - apply grows_trans.
  - intros. apply asked_grows.
  - intros. by apply detail_grows.
Qed.

(** X10. A crawl asks only for listing pages, [base] and [base/page/k/],
    and for URLs of detail shape; the address a next link points to is
    never asked for itself. *)
Theorem crawl_asks_only_for_listing_and_detail_urls
    (fuel : nat) (base_shop_url : string) (w w' : World)
    (why : Crawler.stop) (all_products_data : list (dict pyval)) :
  crawl_shop_pages fuel base_shop_url w
    = Some (Ok (why, all_products_data, w')) ->
  exists new,
    requests w' = requests w ++ new /\
    Forall (Shape.crawl_url base_shop_url) new.
Proof.
  intros (new & recs & Hreq & _ & _ & Hurls & _)%crawl_loop_grows.
  by exists new.
Qed.

(** X11. Every record a crawl returns is complete: the eight keys in the
    order of the source, a rating of 0.0 and a price that is not
    negative. *)
Theorem crawl_records_are_complete
    (fuel : nat) (base_shop_url : string) (w w' : World)
    (why : Crawler.stop) (all_products_data : list (dict pyval)) :
  crawl_shop_pages fuel base_shop_url w
    = Some (Ok (why, all_products_data, w')) ->
  Forall Shape.complete all_products_data.
Proof.
  intros (new & recs & _ & _ & Hall & _ & Hrecs)%crawl_loop_grows.
  cbn [fst] in Hall. by subst.
Qed.

Lemma visit_items_same_responses base_shop_url items st st' :
  visit_items base_shop_url items st = Ok st' ->
  responses st'.2 = responses st.2.
Proof.
  intros Hvisit.
  apply (visit_items_keep BeautifulSoup urljoin base_shop_url (fun _ => True)
           (fun st st' => responses st'.2 = responses st.2)) in Hvisit
    as [_ Hvisit]; try done.
  intros st1 st2 st3 H12 H23. by rewrite H23.
Qed.

(** On an endless catalog no turn of the loop is the last one. *)
Lemma endless_turn base_shop_url w :
  Shape.endless BeautifulSoup urljoin base_shop_url w ->
  forall page_num all_products_data w0,
    responses w0 = responses w ->
    match crawl_page base_shop_url page_num all_products_data w0 with
    | Ok (inl _, _, _) => False
    | Ok (inr _, _, w1) => responses w1 = responses w
    | Raise _ => True
    end.
Proof.
  intros Hendless page_num all_products_data w0 Hresp.
  unfold Crawler.crawl_page, get_page_content. cbv zeta.
  destruct (Hendless (length (requests w0)) page_num)
    as (html & href & Hfetch & Hne%truthy_nonempty & Hcards & Hnext
        & Hhref%truthy_nonempty & Hfar).
  rewrite Hresp, Hfetch, Hne.
  destruct (product_list_items (BeautifulSoup html)) as [|item items]; [done |].
  unfold mbind, result_bind.
  destruct (visit_items _ _ _) as [[all1 w1] | e] eqn:Hvisit; [| done].
  apply visit_items_same_responses in Hvisit. cbn [snd responses] in Hvisit.
  unfold Crawler.resolve_next. rewrite Hnext, Hhref.
  unfold mbind, result_bind.
  destruct (absolute base_shop_url href) as [next_page_url | e] eqn:Habs;
    [| done].
  destruct (String.eqb_spec next_page_url
              (current_page_url base_shop_url page_num)) as [-> | _]; [done |].
  cbn [fst snd]. by rewrite Hvisit.
Qed.

(** X12. On a catalog without end, where every listing page has a card and
    a next link that leads elsewhere, the crawl never returns: there is
    no cap on the number of pages.  When in addition [urljoin] raises on
    no reference, the loop is still running whatever the number of turns
    granted. *)
Theorem crawl_of_endless_catalog_never_returns
    (base_shop_url : string) (w : World) :
  Shape.endless BeautifulSoup urljoin base_shop_url w ->
  (forall fuel r, crawl_shop_pages fuel base_shop_url w <> Some (Ok r)) /\
  ((forall b u, is_ok (urljoin b u) = true) ->
   forall fuel, crawl_shop_pages fuel base_shop_url w = None).
Proof.
  intros Hendless.
  assert (Hgen : forall fuel page_num all_products_data w0,
             responses w0 = responses w ->
             match crawl_loop fuel base_shop_url page_num all_products_data w0 with
             | Some (Ok _) => False
             | Some (Raise _) =>
                 ~ forall b u, is_ok (urljoin b u) = true
             | None => True
             end).
  { induction fuel as [|fuel IH]; intros page_num all_products_data w0 Hresp;
      [done |].
    cbn [Crawler.crawl_loop].
    pose proof (endless_turn base_shop_url w Hendless page_num
                  all_products_data w0 Hresp) as Hturn.
    pose proof (visit_items_return BeautifulSoup urljoin base_shop_url) as Hret.
    revert Hturn. unfold Crawler.crawl_page, get_page_content. cbv zeta.
    destruct (responses w0 _ _) as [html|]; [| done].
    destruct (PyStr.truthy html); [| done].
    destruct (product_list_items (BeautifulSoup html)) as [|item items] eqn:Hi;
      [done |].
    unfold mbind, result_bind.
    destruct (visit_items _ _ _) as [[all1 w1] | e] eqn:Hvisit.
    - destruct (resolve_next _ _ _) as [[why |] | e] eqn:Hnext; [done | |].
      + cbn [fst snd]. intros Hw1. by apply IH.
      + intros _ Htotal. revert Hnext. unfold Crawler.resolve_next.
        destruct (next_page_link_element _) as [href|]; [| done].
        destruct (PyStr.truthy href); [| done].
        unfold mbind, result_bind, Crawler.absolute.
        destruct (PyStr.startswith "http" href);
          [by rewrite String.eqb_sym; destruct (String.eqb _ _) |].
        specialize (Htotal base_shop_url href).
        destruct (urljoin base_shop_url href); [| done].
        by destruct (String.eqb _ _).
    - intros _ Htotal.
      destruct (Hret (item :: items)) with
        (st := (all_products_data,
                Spec.asked (current_page_url base_shop_url page_num) w0))
        as [st' Hst'].
      + apply Forall_forall. intros it _ href _. unfold Crawler.absolute.
        destruct (PyStr.startswith "http" href); [done | apply Htotal].
      + unfold Spec.asked in Hst'. congruence. }
  split.
  - intros fuel r Hrun. specialize (Hgen fuel 1%nat [] w eq_refl).
    unfold Crawler.crawl_shop_pages in Hrun. by rewrite Hrun in Hgen.
  - intros Htotal fuel. specialize (Hgen fuel 1%nat [] w eq_refl).
    unfold Crawler.crawl_shop_pages.
    destruct (crawl_loop fuel base_shop_url 1 [] w) as [[r | e]|]; done.
Qed.

End CrawlerMore.

Section MoreAtFixtures.
Import Fixture.

#[local] Abbreviation crawl_loop := (Crawler.crawl_loop parser join_origin).
#[local] Abbreviation crawl_shop_pages := (Crawler.crawl_shop_pages parser join_origin).

#[local] Ltac run := vm_compute; reflexivity.

Lemma empty_body_is_a_failed_fetch_witness :
  responses Endless.silent_shop (length (requests Endless.silent_shop)) base
    = Some "" /\
  crawl_loop 1 base 1 [] Endless.silent_shop
    = Some (Ok (Crawler.FetchFailed, [], Spec.asked base Endless.silent_shop)).
Proof.
  assert (H : responses Endless.silent_shop
                (length (requests Endless.silent_shop)) base = Some "") by run.
  split; [exact H |].
  destruct (empty_body_is_a_failed_fetch parser join_origin base
              Endless.silent_shop H) as [_ Hlisting].
  apply (Hlisting 0%nat base 1%nat []). run.
Defined.

Lemma crawl_asks_only_for_listing_and_detail_urls_witness :
  exists why all_products_data w',
    crawl_shop_pages 5 base shop = Some (Ok (why, all_products_data, w')) /\
    exists new,
      requests w' = requests shop ++ new /\
      Forall (Shape.crawl_url base) new.
Proof.
  destruct (crawl_shop_pages 5 base shop)
    as [[[[why all_products_data] w'] | e]|] eqn:Hrun;
    [| vm_compute in Hrun; discriminate Hrun
     | vm_compute in Hrun; discriminate Hrun].
  exists why, all_products_data, w'. split; [reflexivity |].
  exact (crawl_asks_only_for_listing_and_detail_urls parser join_origin 5 base
           shop w' why all_products_data Hrun).
Defined.

Lemma crawl_records_are_complete_witness :
  exists why all_products_data w',
    crawl_shop_pages 5 base shop = Some (Ok (why, all_products_data, w')) /\
    Forall Shape.complete all_products_data.
Proof.
  destruct (crawl_shop_pages 5 base shop)
    as [[[[why all_products_data] w'] | e]|] eqn:Hrun;
    [| vm_compute in Hrun; discriminate Hrun
     | vm_compute in Hrun; discriminate Hrun].
  exists why, all_products_data, w'. split; [reflexivity |].
  exact (crawl_records_are_complete parser join_origin 5 base
           shop w' why all_products_data Hrun).
Defined.

Lemma endless_shop_is_endless :
  Shape.endless Endless.parser Endless.join base Endless.shop.
Proof.
  intros n page_num. exists "page", "/collections/sale?page=next".
  split; [reflexivity |]. split; [discriminate |]. split; [discriminate |].
  split; [reflexivity |]. split; [discriminate |].
  unfold Crawler.current_page_url.
  destruct (1 <? page_num)%nat; [| discriminate].
  intros Heq.
  apply (f_equal (fun r => match r with
                           | Ok u =>
                               PyStr.startswith
                                 "https://apniroots.com/collections/sale/" u
                           | Raise _ => false
                           end)) in Heq.
  discriminate Heq.
Qed.

Lemma crawl_of_endless_catalog_never_returns_witness :
  Shape.endless Endless.parser Endless.join base Endless.shop /\
  Crawler.crawl_shop_pages Endless.parser Endless.join 1000 base Endless.shop
    = None.
Proof.
  split; [exact endless_shop_is_endless |].
  destruct (crawl_of_endless_catalog_never_returns Endless.parser Endless.join
              base Endless.shop endless_shop_is_endless) as [_ Hrunning].
  apply Hrunning. reflexivity.
Defined.

End MoreAtFixtures.

(** ** More on the scroll loop *)

Lemma scroll_loop_sound (heights : nat -> Z) (fuel : nat) :
  forall scrolls n,
    Rendered.scroll_loop fuel heights scrolls (heights scrolls) = Some n ->
    exists m,
      n = (scrolls + S m)%nat /\ (S m <= fuel)%nat /\
      heights (scrolls + S m)%nat = heights (scrolls + m)%nat /\
      forall j, (j < m)%nat ->
                heights (scrolls + S j)%nat <> heights (scrolls + j)%nat.
Proof.
  induction fuel as [|fuel IH]; intros scrolls n; [done |].
  cbn [Rendered.scroll_loop].
  destruct (Z.eqb_spec (heights (S scrolls)) (heights scrolls)) as [E | E].
  - intros [= <-]. exists 0%nat.
    rewrite Nat.add_1_r, Nat.add_0_r. repeat split; [lia | done | lia].
  - intros (m & -> & Hm & Heq & Hne)%IH. exists (S m).
    rewrite !Nat.add_succ_l, <- !Nat.add_succ_r in *.
    split; [done |]. split; [lia |]. split; [done |].
    intros [|j] Hj.
    + by rewrite Nat.add_1_r, Nat.add_0_r.
    + specialize (Hne j ltac:(lia)).
      by rewrite !Nat.add_succ_l, <- !Nat.add_succ_r in Hne.
Qed.

(** X13. The scroll loop returns after its n-th scroll exactly when n is
    the first scroll after which the height equals the height before it,
    and the fuel reaches that far. *)
Theorem scroll_returns_at_first_equal_height
    (fuel : nat) (heights : nat -> Z) (m : nat) :
  Rendered.scroll fuel heights <> Some 0%nat /\
  (Rendered.scroll fuel heights = Some (S m) <->
   (S m <= fuel)%nat /\ heights (S m) = heights m /\
   forall j, (j < m)%nat -> heights (S j) <> heights j).
Proof.
  unfold Rendered.scroll. split.
  - intros (k & Hk & _)%scroll_loop_sound. lia.
  - split.
    + intros (k & Hk & Hfuel & Heq & Hne)%scroll_loop_sound.
      cbn [Nat.add] in *. injection Hk as ->. done.
    + intros (Hfuel & Heq & Hne).
      by apply (scroll_loop_exit heights m 0%nat fuel).
Qed.

(** X14. When every scroll changes the height the loop never returns: it
    has no cap on the number of scrolls. *)
Theorem scroll_never_returns_while_height_changes (heights : nat -> Z) :
  (forall j, heights (S j) <> heights j) ->
  forall fuel, Rendered.scroll fuel heights = None.
Proof.
  intros Hchange fuel. unfold Rendered.scroll.
  destruct (Rendered.scroll_loop fuel heights 0 (heights 0%nat)) as [n|] eqn:Hrun;
    [| done].
  apply scroll_loop_sound in Hrun as (m & _ & _ & Heq & _).
  by apply Hchange in Heq.
Qed.

Lemma scroll_never_returns_while_height_changes_witness :
  (forall j, Z.of_nat (S j) <> Z.of_nat j) /\
  Rendered.scroll 500 Z.of_nat = None.
Proof.
  assert (H : forall j, Z.of_nat (S j) <> Z.of_nat j) by (intros j; lia).
  split; [exact H |].
  exact (scroll_never_returns_while_height_changes Z.of_nat H 500).
Defined.

(** X15. On measurements that never decrease, the loop returns exactly at
    the first scroll after which the height is not greater than before. *)
Theorem scroll_on_growing_page (fuel : nat) (heights : nat -> Z) (m : nat) :
  (forall j, (heights j <= heights (S j))%Z) ->
  (Rendered.scroll fuel heights = Some (S m) <->
   (S m <= fuel)%nat /\ (heights (S m) <= heights m)%Z /\
   forall j, (j < m)%nat -> (heights j < heights (S j))%Z).
Proof.
  intros Hgrow. unfold Rendered.scroll. split.
  - intros (k & Hk & Hfuel & Heq & Hne)%scroll_loop_sound.
    cbn [Nat.add] in *. injection Hk as ->.
    split; [done |]. split; [lia |].
    intros j Hj. specialize (Hne j Hj). specialize (Hgrow j). lia.
  - intros (Hfuel & Hle & Hlt).
    apply (scroll_loop_exit heights m 0%nat fuel); cbn [Nat.add]; [| | done].
    + intros j Hj. specialize (Hlt j Hj). lia.
    + specialize (Hgrow m). lia.
Qed.

Lemma scroll_on_growing_page_witness :
  (forall j, (Spec.measured [100; 250; 400; 400]%Z j
              <= Spec.measured [100; 250; 400; 400]%Z (S j))%Z) /\
  Rendered.scroll 10 (Spec.measured [100; 250; 400; 400]%Z) = Some 3%nat.
Proof.
  assert (H : forall j, (Spec.measured [100; 250; 400; 400]%Z j
                         <= Spec.measured [100; 250; 400; 400]%Z (S j))%Z).
  { intros j. do 4 (destruct j as [|j]; [by vm_compute |]).
    destruct j; by vm_compute. }
  split; [exact H |].
  apply (scroll_on_growing_page 10 _ 2 H).
  split; [lia |]. split; [by vm_compute |].
  intros j Hj. do 2 (destruct j as [|j]; [by vm_compute |]). lia.
Defined.

(** ** The popup *)

(** X16. Escape is pressed exactly when the first call that does not
    return raises something other than a timeout; the close button is
    clicked exactly when the popup became visible; and a click that times
    out ends the handling without the Escape key. *)
Theorem escape_only_after_an_error_that_is_no_timeout (p : Popup.popup) :
  (In Popup.PressEscape (Popup.handle_popup p) <->
   Popup.wait_visible p = Popup.Fails \/
   (Popup.wait_visible p = Popup.Returns /\ Popup.click_close p = Popup.Fails) \/
   (Popup.wait_visible p = Popup.Returns /\ Popup.click_close p = Popup.Returns
    /\ Popup.wait_hidden p = Popup.Fails)) /\
  (In Popup.ClickClose (Popup.handle_popup p) <->
   Popup.wait_visible p = Popup.Returns) /\
  (Popup.wait_visible p = Popup.Returns ->
   Popup.click_close p = Popup.TimesOut ->
   Popup.handle_popup p = [Popup.WaitVisible; Popup.ClickClose]).
Proof.
  destruct p as [[] [] []]; cbn; intuition congruence.
Qed.

Lemma escape_only_after_an_error_that_is_no_timeout_witness :
  Popup.handle_popup
    {| Popup.wait_visible := Popup.Returns; Popup.click_close := Popup.TimesOut;
       Popup.wait_hidden := Popup.Returns |}
    = [Popup.WaitVisible; Popup.ClickClose].
Proof.
  apply (escape_only_after_an_error_that_is_no_timeout
           {| Popup.wait_visible := Popup.Returns;
              Popup.click_close := Popup.TimesOut;
              Popup.wait_hidden := Popup.Returns |}); reflexivity.
Defined.

(** ** The product elements of the rendered page *)

(** X17. The rendering scraper drops nothing: every product element gives
    one product, in order, with the seven keys of the source, a rating of
    [None] and the category [Sale]; and a sale price element, when there
    is one, gives the price even if a regular one is there too. *)
Theorem every_element_yields_a_product
    (query_selector_all : string -> node -> list node)
    (query_selector : string -> node -> option node) (page : node) :
  let elements := query_selector_all "product-item.product-collection" page in
  let products := Scrape.extract query_selector_all query_selector page in
  length products = length elements /\
  Forall (fun d =>
            PyDict.keys d = Shape.product_keys /\
            PyDict.get "Rating" d = Some None /\
            PyDict.get "Category" d = Some (Some "Sale")) products /\
  forall i product_elem sale,
    elements !! i = Some product_elem ->
    query_selector "span.price--sale[data-js-product-price]" product_elem
      = Some sale ->
    exists d, products !! i = Some d /\
              PyDict.get "Price" d = Some (Some (Soup.text sale)).
Proof.
  intros elements products. subst products. unfold Scrape.extract.
  fold elements. split; [apply length_map |]. split.
  - apply Forall_forall. intros d (e & <- & _)%list_elem_of_In%in_map_iff.
    split; [| split]; reflexivity.
  - intros i product_elem sale Hi Hsale.
    exists (Scrape.product_of query_selector product_elem). split.
    + change (List.map ?f ?l) with (f <$> l). by rewrite list_lookup_fmap, Hi.
    + change (PyDict.get "Price" (Scrape.product_of query_selector product_elem))
        with (Some (Scrape.price query_selector product_elem)).
      unfold Scrape.price. by rewrite Hsale.
Qed.

Lemma every_element_yields_a_product_witness :
  Rendering.query_selector_all "product-item.product-collection" Rendering.page
    !! 0%nat = Some Rendering.on_sale /\
  Rendering.query_selector "span.price--sale[data-js-product-price]"
    Rendering.on_sale = Some Rendering.sale_element /\
  exists d,
    Scrape.extract Rendering.query_selector_all Rendering.query_selector
      Rendering.page !! 0%nat = Some d /\
    PyDict.get "Price" d = Some (Some (Soup.text Rendering.sale_element)).
Proof.
  assert (H1 : Rendering.query_selector_all "product-item.product-collection"
                 Rendering.page !! 0%nat = Some Rendering.on_sale) by reflexivity.
  assert (H2 : Rendering.query_selector "span.price--sale[data-js-product-price]"
                 Rendering.on_sale = Some Rendering.sale_element) by reflexivity.
  split; [exact H1 |]. split; [exact H2 |].
  destruct (every_element_yields_a_product Rendering.query_selector_all
              Rendering.query_selector Rendering.page) as (_ & _ & Hsale).
  exact (Hsale 0%nat Rendering.on_sale Rendering.sale_element H1 H2).
Defined.
